(** * todo-kanban: the task API service and the kanban client view-model

  A shallow embedding of
  - [api-app/src/modules/task]: the create-task schema, the [Task] entity,
    [TaskService] and [TaskController];
  - [web-app/src/App.vue]: the client view-model with its three lists.

  The ORM repository, the schema library and the browser's [fetch] are
  libraries the program calls; they are modelled here by executable
  definitions that follow their documented behaviour, and the program's own
  functions are written on top of them call for call. *)

From Stdlib Require Import List String Ascii Bool Arith ZArith NArith Lia.
Import ListNotations.

Set Implicit Arguments.

(* ===================================================================== *)
(** ** JavaScript strings *)
(* ===================================================================== *)

Module JS.

(** A JavaScript string is a sequence of UTF-16 code units; [length]
    counts code units. *)
Definition char16 := N.
Definition jsstring := list char16.

(** A literal, for strings whose characters are below U+0100. *)
Fixpoint str (s : string) : jsstring :=
  match s with
  | EmptyString => []
  | String c r => N_of_ascii c :: str r
  end.

(** ECMAScript [WhiteSpace] and [LineTerminator] code points, the ones
    [String.prototype.trim] strips. *)
Definition isWhiteSpace (c : char16) : bool :=
  let c := Z.of_N c in
  (  (9 <=? c) && (c <=? 13)            (* TAB LF VT FF CR *)
  || (c =? 32) || (c =? 160)            (* SP, NBSP *)
  || (c =? 5760)                        (* U+1680 *)
  || (8192 <=? c) && (c <=? 8202)       (* U+2000 .. U+200A *)
  || (c =? 8232) || (c =? 8233)         (* U+2028, U+2029 *)
  || (c =? 8239) || (c =? 8287)         (* U+202F, U+205F *)
  || (c =? 12288) || (c =? 65279))%Z.   (* U+3000, U+FEFF *)

Fixpoint trimStart (s : jsstring) : jsstring :=
  match s with
  | [] => []
  | c :: r => if isWhiteSpace c then trimStart r else s
  end.

Definition trimEnd (s : jsstring) : jsstring := rev (trimStart (rev s)).

Definition trim (s : jsstring) : jsstring := trimEnd (trimStart s).

(** Truthiness of a string: the empty string is the only falsy one. *)
Definition truthy (s : jsstring) : bool :=
  match s with [] => false | _ :: _ => true end.

(** A string made of white space only (the empty string included). *)
Definition blank (s : jsstring) : bool := forallb isWhiteSpace s.

(** Surrogate code units: a high one followed by a low one is one code
    point, any other surrogate is unpaired. *)
Definition isHighSurrogate (c : char16) : bool :=
  ((55296 <=? c) && (c <=? 56319))%N.

Definition isLowSurrogate (c : char16) : bool :=
  ((56320 <=? c) && (c <=? 57343))%N.

(** [String.prototype.toWellFormed], which is also what encoding a string
    as UTF-8 keeps of it: every unpaired surrogate becomes U+FFFD. *)
Fixpoint toWellFormed (s : jsstring) : jsstring :=
  match s with
  | [] => []
  | c :: r =>
      if isHighSurrogate c then
        match r with
        | d :: r' =>
            if isLowSurrogate d then c :: d :: toWellFormed r'
            else 65533%N :: toWellFormed r
        | [] => [65533%N]
        end
      else if isLowSurrogate c then 65533%N :: toWellFormed r
      else c :: toWellFormed r
  end.

(** The number of code points of the string so encoded. *)
Fixpoint codePoints (s : jsstring) : nat :=
  match s with
  | [] => 0
  | c :: r =>
      if isHighSurrogate c then
        match r with
        | d :: r' =>
            if isLowSurrogate d then S (codePoints r') else S (codePoints r)
        | [] => 1
        end
      else S (codePoints r)
  end.

(** The string holds the code unit 0. *)
Definition hasNul (s : jsstring) : bool := existsb (N.eqb 0) s.

End JS.

(* ===================================================================== *)
(** ** The string schema of the validation library *)
(* ===================================================================== *)

Module Zod.
Import JS.

(** [z.string()] carries a list of checks; every chained method appends
    one, and parsing runs them in the order they were chained.  [trim] is
    one of these checks: it rewrites the value the later checks see. *)
Inductive ZodStringCheck : Type :=
| check_min (value : nat)
| check_max (value : nat)
| check_trim.

(** The parse loop: the data and the validity flag go through the checks
    from first to last; a failed check marks the result invalid and the
    loop goes on. *)
Fixpoint run_checks (checks : list ZodStringCheck)
         (data : jsstring) (valid : bool) : jsstring * bool :=
  match checks with
  | [] => (data, valid)
  | check_min v :: rest =>
      run_checks rest data (if List.length data <? v then false else valid)
  | check_max v :: rest =>
      run_checks rest data (if v <? List.length data then false else valid)
  | check_trim :: rest =>
      run_checks rest (trim data) valid
  end.

Definition safeParse (checks : list ZodStringCheck) (input : jsstring)
  : option jsstring :=
  let (data, valid) := run_checks checks input true in
  if valid then Some data else None.

End Zod.

(* ===================================================================== *)
(** ** dto/create-task.dto.ts *)
(* ===================================================================== *)

Module Dto.
Import JS Zod.

Record CreateTaskDto : Type := { title : jsstring }.

(** [z.string().min(1).max(255).trim()] *)
Definition titleSchema : list ZodStringCheck :=
  [check_min 1; check_max 255; check_trim].

(** [CreateTaskSchema = z.object({ title: ... })], applied to an object
    whose [title] is the given string. *)
Definition CreateTaskSchema (input : jsstring) : option CreateTaskDto :=
  match safeParse titleSchema input with
  | Some t => Some {| title := t |}
  | None => None
  end.

End Dto.

(* ===================================================================== *)
(** ** entities/task.entity.ts and the ORM repository *)
(* ===================================================================== *)

Module Orm.
Import JS.

(** Modelled from the spec: [enums/task-status.enum.ts] is not among the
    sources; the members are the three statuses the spec and the entity's
    column comment name (todo, progress, done), [TODO] being the column
    default. *)
Inductive TaskStatus : Type := TODO | PROGRESS | DONE.

(** [class Task]: one row of the table [tasks].  Dates are milliseconds
    since the epoch. *)
Record Task : Type := {
  id : string;
  title : jsstring;
  status : TaskStatus;
  createdAt : Z;
  updatedAt : Z;
  deletedAt : option Z
}.

Definition Table := list Task.

(** An entity object as the program holds it before it is saved: any column
    may still be undefined.  [deletedAt] is [Date | null] when defined. *)
Record DeepPartial : Type := {
  p_id : option string;
  p_title : option jsstring;
  p_status : option TaskStatus;
  p_createdAt : option Z;
  p_updatedAt : option Z;
  p_deletedAt : option (option Z)
}.

(** What a request reads from its surroundings: the clock and the uuid the
    store generates for a new primary key. *)
Record Env : Type := { now : Z; uuid : string }.

Definition dquote : string := String (ascii_of_nat 34) EmptyString.

Inductive Exception : Type :=
| NotFoundException (message : string)
| BadRequestException (message : string)
| QueryFailedError.

Inductive Result (A : Type) : Type :=
| Ok (a : A)
| Err (e : Exception).
Arguments Ok {A} a.
Arguments Err {A} e.

(** An [async] method of the service: it reads the environment, reads and
    writes the table, and returns or throws. *)
Definition M (A : Type) : Type := Env -> Table -> Result A * Table.

Definition ret {A} (a : A) : M A := fun _ db => (Ok a, db).

Definition throw {A} (x : Exception) : M A := fun _ db => (Err x, db).

Definition bind {A B} (c : M A) (k : A -> M B) : M B :=
  fun e db =>
    match c e db with
    | (Ok a, db') => k a e db'
    | (Err x, db') => (Err x, db')
    end.

Declare Scope orm_scope.
Delimit Scope orm_scope with orm.
Notation "x <- c ;; k" := (bind c (fun x => k))
  (at level 61, c at next level, right associativity) : orm_scope.
Local Open Scope orm_scope.

Definition Task_eq_dec (a b : Task) : {a = b} + {a <> b}.
Proof.
  decide equality.
  - decide equality; apply Z.eq_dec.
  - apply Z.eq_dec.
  - apply Z.eq_dec.
  - decide equality.
  - apply (list_eq_dec N.eq_dec).
  - apply string_dec.
Defined.

Definition default {A} (d : A) (o : option A) : A :=
  match o with Some a => a | None => d end.

(** Keys are compared as they are spelled.  The store writes the keys it
    generates in lower case and compares them by value; the two agree on
    every key spelled as the store spells it, which is how the statements
    about single keys take them. *)
Definition hasId (i : string) (t : Task) : bool := (id t =? i)%string.

Definition notDeleted (t : Task) : bool :=
  match deletedAt t with None => true | Some _ => false end.

(** [repository.create(props)]: a new entity object carrying the given
    properties and nothing else; nothing is written. *)
Definition Repository_create (props : DeepPartial) : DeepPartial := props.

Definition entity (t : Task) : DeepPartial :=
  {| p_id := Some (id t); p_title := Some (title t);
     p_status := Some (status t); p_createdAt := Some (createdAt t);
     p_updatedAt := Some (updatedAt t); p_deletedAt := Some (deletedAt t) |}.

(** The columns of [old] overwritten by the defined properties of [p]. *)
Definition merge (old : Task) (p : DeepPartial) : Task :=
  {| id := id old;
     title := default (title old) (p_title p);
     status := default (status old) (p_status p);
     createdAt := default (createdAt old) (p_createdAt p);
     updatedAt := default (updatedAt old) (p_updatedAt p);
     deletedAt := default (deletedAt old) (p_deletedAt p) |}.

Definition touch (t : Z) (r : Task) : Task :=
  {| id := id r; title := title r; status := status r;
     createdAt := createdAt r; updatedAt := t; deletedAt := deletedAt r |}.

(** [UPDATE tasks SET <columns of new> WHERE id = i].  The list keeps the
    rows by rank of insertion; the order in which a select without
    [ORDER BY] lists them is the store's own, and no statement about what is
    listed relies on it. *)
Definition update_where_id (i : string) (new : Task) (db : Table) : Table :=
  map (fun r => if hasId i r then new else r) db.

(** What the title column, [varchar(255)] and not nullable, takes: at most
    255 characters, none of them NUL. *)
Definition storable (t : jsstring) : bool :=
  negb (hasNul t) && (codePoints t <=? 255).

(** [repository.save(entity)].  An entity whose primary key is found in the
    table is updated: nothing is written when no column differs, otherwise
    the row is rewritten and its update date refreshed.  Any other entity is
    inserted: the key is generated when undefined, [status] takes the column
    default, both dates are the current time, the delete date is null.  A
    title the column does not take makes the statement fail and nothing is
    written; a title it takes is written as its UTF-8 encoding keeps it,
    unpaired surrogates as U+FFFD.  The saved entity is returned with the
    generated columns filled in, its other properties as they were given. *)
Definition Repository_save (p : DeepPartial) : M Task :=
  fun e db =>
    match match p_id p with
          | Some i => List.find (hasId i) db
          | None => None
          end with
    | Some old =>
        let new := merge old p in
        if Task_eq_dec new old then (Ok new, db)
        else if list_eq_dec N.eq_dec (title new) (title old) then
          let new := touch (now e) new in
          (Ok new, update_where_id (id old) new db)
        else if storable (title new) then
          let new := touch (now e) new in
          (Ok new,
           update_where_id (id old)
             {| id := id new; title := toWellFormed (title new);
                status := status new; createdAt := createdAt new;
                updatedAt := updatedAt new; deletedAt := deletedAt new |} db)
        else (Err QueryFailedError, db)
    | None =>
        match p_title p with
        | None => (Err QueryFailedError, db)
        | Some t =>
            if storable t then
              let row :=
                {| id := default (uuid e) (p_id p);
                   title := t;
                   status := default TODO (p_status p);
                   createdAt := default (now e) (p_createdAt p);
                   updatedAt := default (now e) (p_updatedAt p);
                   deletedAt := default None (p_deletedAt p) |} in
              (Ok row,
               db ++ [{| id := id row; title := toWellFormed t;
                         status := status row; createdAt := createdAt row;
                         updatedAt := updatedAt row;
                         deletedAt := deletedAt row |}])
            else (Err QueryFailedError, db)
        end
    end.

(** [repository.find()]: the entity has a delete-date column, so the select
    carries [WHERE deletedAt IS NULL].  The rows come by rank of insertion
    (see [update_where_id]). *)
Definition Repository_find : M (list Task) :=
  fun _ db => (Ok (filter notDeleted db), db).

(** [repository.findOneBy({ id })]: a select too, with the same condition;
    [None] is the [null] it resolves to when no row matches. *)
Definition Repository_findOneBy (i : string) : M (option Task) :=
  fun _ db =>
    (Ok (List.find (fun r => hasId i r && notDeleted r) db), db).

Record UpdateResult : Type := { affected : nat }.

Definition markDeleted (t : Z) (r : Task) : Task :=
  {| id := id r; title := title r; status := status r;
     createdAt := createdAt r; updatedAt := t; deletedAt := Some t |}.

(** [repository.softDelete(id)]:
    [UPDATE tasks SET deletedAt = now, updatedAt = now WHERE id IN (id)];
    an update, so rows already marked deleted match as well. *)
Definition Repository_softDelete (i : string) : M UpdateResult :=
  fun e db =>
    (Ok {| affected := List.length (filter (hasId i) db) |},
     map (fun r => if hasId i r then markDeleted (now e) r else r) db).

End Orm.

(* ===================================================================== *)
(** ** task.service.ts *)
(* ===================================================================== *)

Module TaskService.
Import JS Orm.
Local Open Scope orm_scope.

Definition notFoundMessage (i : string) : string :=
  ("Tugas dengan ID " ++ dquote ++ i ++ dquote ++ " tidak ditemukan.")%string.

Definition create (createTaskDto : Dto.CreateTaskDto) : M Task :=
  let task :=
    Repository_create
      {| p_id := None; p_title := Some (Dto.title createTaskDto);
         p_status := None; p_createdAt := None; p_updatedAt := None;
         p_deletedAt := None |} in
  task <- Repository_save task ;;
  ret task.

Definition findAll : M (list Task) := Repository_find.

Definition findOne (i : string) : M Task :=
  task <- Repository_findOneBy i ;;
  match task with
  | None => throw (NotFoundException (notFoundMessage i))
  | Some task => ret task
  end.

Definition setStatus (s : TaskStatus) (t : Task) : Task :=
  {| id := id t; title := title t; status := s;
     createdAt := createdAt t; updatedAt := updatedAt t;
     deletedAt := deletedAt t |}.

(** The [console.log] of the found task is left out. *)
Definition updateStatus (i : string) (s : TaskStatus) : M Task :=
  task <- findOne i ;;
  let task := setStatus s task in
  task <- Repository_save (entity task) ;;
  ret task.

Definition remove (i : string) : M unit :=
  result <- Repository_softDelete i ;;
  if affected result =? 0
  then throw (NotFoundException (notFoundMessage i))
  else ret tt.

(** The four operations as values, to speak of any operation and of any
    sequence of them. *)
Inductive Op : Type :=
| OpCreate (dto : Dto.CreateTaskDto)
| OpFindAll
| OpUpdateStatus (i : string) (s : TaskStatus)
| OpRemove (i : string).

Definition exec (op : Op) (e : Env) (db : Table) : Table :=
  match op with
  | OpCreate dto => snd (create dto e db)
  | OpFindAll => snd (findAll e db)
  | OpUpdateStatus i s => snd (updateStatus i s e db)
  | OpRemove i => snd (remove i e db)
  end.

Fixpoint run (ops : list (Op * Env)) (db : Table) : Table :=
  match ops with
  | [] => db
  | (op, e) :: rest => run rest (exec op e db)
  end.

End TaskService.

(* ===================================================================== *)
(** ** What travels between the client and the API *)
(* ===================================================================== *)

Module Http.
Import JS.

(** [interface Task] of App.vue: the fields the client reads from the JSON
    of a task.  [status] is whatever string the JSON carries; the union type
    ['todo' | 'progress' | 'done'] is erased at run time. *)
Record Task : Type := {
  id : string;
  title : jsstring;
  status : string
}.

(** The four calls [fetch] is used for, on [API_URL]. *)
Inductive Request : Type :=
| GET_tasks
| POST_tasks (title : jsstring)
| PATCH_task (id : string) (status : string)
| DELETE_task (id : string).

(** The [message] of an error body: a string or an array of strings. *)
Inductive Message : Type :=
| MsgString (s : string)
| MsgArray (l : list string).

Inductive Body : Type :=
| JsonTasks (tasks : list Task)
| JsonTask (task : Task)
| JsonError (message : option Message)
| NoContent.

Record Response : Type := {
  code : nat;
  statusText : string;
  body : Body
}.

(** [response.ok] *)
Definition ok (r : Response) : bool := (200 <=? code r) && (code r <=? 299).

(** The promise [fetch] returns: rejected with an error (the network
    failed), or fulfilled with a response. *)
Inductive Outcome : Type :=
| Rejected (message : string)
| Fulfilled (r : Response).

End Http.

(* ===================================================================== *)
(** ** task.controller.ts *)
(* ===================================================================== *)

Module TaskController.
Import JS Orm Http.

Definition isHex (c : ascii) : bool :=
  let n := nat_of_ascii c in
  ((48 <=? n) && (n <=? 57)) || ((65 <=? n) && (n <=? 70))
  || ((97 <=? n) && (n <=? 102)).

(** [n] hexadecimal digits at the head of [s]; the rest of [s]. *)
Fixpoint hexRun (n : nat) (s : string) : option string :=
  match n, s with
  | O, _ => Some s
  | S n', String c r => if isHex c then hexRun n' r else None
  | S _, EmptyString => None
  end.

Definition dash (s : option string) : option string :=
  match s with
  | Some (String c r) => if (c =? "-")%char then Some r else None
  | _ => None
  end.

(** [ParseUUIDPipe]: 8-4-4-4-12 hexadecimal digits. *)
Definition isUUID (s : string) : bool :=
  match dash (hexRun 8 s) with
  | Some s =>
      match dash (hexRun 4 s) with
      | Some s =>
          match dash (hexRun 4 s) with
          | Some s =>
              match dash (hexRun 4 s) with
              | Some s =>
                  match hexRun 12 s with
                  | Some EmptyString => true
                  | _ => false
                  end
              | None => false
              end
          | None => false
          end
      | None => false
      end
  | None => false
  end.

(** Modelled from the spec: the values of the [TaskStatus] enum
    ([enums/task-status.enum.ts] is not among the sources). *)
Definition statusValue (s : TaskStatus) : string :=
  match s with
  | TODO => "todo"
  | PROGRESS => "progress"
  | DONE => "done"
  end.

(** [UpdateTaskSchema]: [z.nativeEnum(TaskStatus)] on the [status] of the
    body. *)
Definition UpdateTaskSchema (s : string) : option TaskStatus :=
  if (s =? "todo")%string then Some TODO
  else if (s =? "progress")%string then Some PROGRESS
  else if (s =? "done")%string then Some DONE
  else None.

(** What [ParseUUIDPipe] throws on a parameter that is not a uuid. *)
Definition uuidExpected : Exception :=
  BadRequestException "Validation failed (uuid is expected)".

(** The JSON of an entity, as far as the client reads it. *)
Definition toJSON (t : Orm.Task) : Http.Task :=
  {| Http.id := Orm.id t; Http.title := Orm.title t;
     Http.status := statusValue (Orm.status t) |}.

(** The response the framework's exception filter builds. *)
Definition exceptionResponse (x : Exception) : Response :=
  match x with
  | NotFoundException m =>
      {| code := 404; statusText := "Not Found";
         body := JsonError (Some (MsgString m)) |}
  | BadRequestException m =>
      {| code := 400; statusText := "Bad Request";
         body := JsonError (Some (MsgString m)) |}
  | QueryFailedError =>
      {| code := 500; statusText := "Internal Server Error";
         body := JsonError (Some (MsgString "Internal server error")) |}
  end.

Definition respond {A} (r : Result A * Table) (success : A -> Response)
  : Response * Table :=
  match r with
  | (Ok a, db) => (success a, db)
  | (Err x, db) => (exceptionResponse x, db)
  end.

(** Modelled from the spec: the pipe that applies [CreateTaskSchema] to the
    body of [POST /tasks] is not among the sources (the spec has the service
    validate its input); a body the schema refuses is a bad request. *)
Definition createTaskBody (t : jsstring) : Result Dto.CreateTaskDto :=
  match Dto.CreateTaskSchema t with
  | Some createTaskDto => Ok createTaskDto
  | None => Err (BadRequestException "Validation failed")
  end.

(** Modelled from the spec: the pipe that applies [UpdateTaskSchema] to the
    body of [PATCH /tasks/:id] is not among the sources either. *)
Definition updateTaskBody (s : string) : Result TaskStatus :=
  match UpdateTaskSchema s with
  | Some st => Ok st
  | None => Err (BadRequestException "Validation failed")
  end.

(** The four routes of the controller.  A parameter its pipe refuses is
    answered before the service is called. *)
Definition handle (req : Request) (e : Env) (db : Table) : Response * Table :=
  match req with
  | POST_tasks t =>
      match createTaskBody t with
      | Ok createTaskDto =>
          respond (TaskService.create createTaskDto e db)
            (fun task => {| code := 201; statusText := "Created";
                            body := JsonTask (toJSON task) |})
      | Err x => (exceptionResponse x, db)
      end
  | GET_tasks =>
      respond (TaskService.findAll e db)
        (fun tasks => {| code := 200; statusText := "OK";
                         body := JsonTasks (map toJSON tasks) |})
  | PATCH_task i s =>
      if isUUID i then
        match updateTaskBody s with
        | Ok st =>
            respond (TaskService.updateStatus i st e db)
              (fun task => {| code := 200; statusText := "OK";
                              body := JsonTask (toJSON task) |})
        | Err x => (exceptionResponse x, db)
        end
      else (exceptionResponse uuidExpected, db)
  | DELETE_task i =>
      if isUUID i then
        respond (TaskService.remove i e db)
          (fun _ => {| code := 204; statusText := "No Content";
                       body := NoContent |})
      else (exceptionResponse uuidExpected, db)
  end.

End TaskController.

(* ===================================================================== *)
(** ** web-app/src/App.vue: the client view-model *)
(* ===================================================================== *)

Module App.
Import JS Http.

(** The refs of the component. *)
Record View : Type := {
  todoTasks : list Task;
  progressTasks : list Task;
  doneTasks : list Task;
  newTaskTitle : jsstring;
  isLoading : bool;
  errorMessage : option string
}.

Definition setLists (a b c : list Task) (v : View) : View :=
  {| todoTasks := a; progressTasks := b; doneTasks := c;
     newTaskTitle := newTaskTitle v; isLoading := isLoading v;
     errorMessage := errorMessage v |}.

Definition setTitle (t : jsstring) (v : View) : View :=
  {| todoTasks := todoTasks v; progressTasks := progressTasks v;
     doneTasks := doneTasks v; newTaskTitle := t;
     isLoading := isLoading v; errorMessage := errorMessage v |}.

Definition setLoading (b : bool) (v : View) : View :=
  {| todoTasks := todoTasks v; progressTasks := progressTasks v;
     doneTasks := doneTasks v; newTaskTitle := newTaskTitle v;
     isLoading := b; errorMessage := errorMessage v |}.

Definition setError (m : option string) (v : View) : View :=
  {| todoTasks := todoTasks v; progressTasks := progressTasks v;
     doneTasks := doneTasks v; newTaskTitle := newTaskTitle v;
     isLoading := isLoading v; errorMessage := m |}.

(** The three lists, in the order [todoTasks, progressTasks, doneTasks]. *)
Definition lists (v : View) : list Task * list Task * list Task :=
  (todoTasks v, progressTasks v, doneTasks v).

(** The body of the [forEach] callback of [fetchTasks]. *)
Definition place (v : View) (task : Task) : View :=
  if (status task =? "todo")%string then
    setLists (todoTasks v ++ [task]) (progressTasks v) (doneTasks v) v
  else if (status task =? "progress")%string then
    setLists (todoTasks v) (progressTasks v ++ [task]) (doneTasks v) v
  else if (status task =? "done")%string then
    setLists (todoTasks v) (progressTasks v) (doneTasks v ++ [task]) v
  else v.

(** [list.findIndex((task) => task.id === i)]; [None] is [-1]. *)
Fixpoint findIndex (i : string) (l : list Task) : option nat :=
  match l with
  | [] => None
  | t :: r =>
      if (id t =? i)%string then Some 0
      else match findIndex i r with
           | Some k => Some (S k)
           | None => None
           end
  end.

(** [list.splice(index, 1)] *)
Fixpoint splice1 (index : nat) (l : list Task) : list Task :=
  match index, l with
  | _, [] => []
  | O, _ :: r => r
  | S k, t :: r => t :: splice1 k r
  end.

(** The loop of [deleteTask] over [todoTasks, progressTasks, doneTasks]:
    the first list that holds the id loses that element, and the loop
    breaks. *)
Definition removeFromLists (i : string) (v : View) : View :=
  match findIndex i (todoTasks v) with
  | Some k =>
      setLists (splice1 k (todoTasks v)) (progressTasks v) (doneTasks v) v
  | None =>
      match findIndex i (progressTasks v) with
      | Some k =>
          setLists (todoTasks v) (splice1 k (progressTasks v)) (doneTasks v) v
      | None =>
          match findIndex i (doneTasks v) with
          | Some k =>
              setLists (todoTasks v) (progressTasks v)
                       (splice1 k (doneTasks v)) v
          | None => v
          end
      end
  end.

Fixpoint join (sep : string) (l : list string) : string :=
  match l with
  | [] => EmptyString
  | [s] => s
  | s :: r => (s ++ sep ++ join sep r)%string
  end.

Definition nonEmpty (s : string) : bool :=
  match s with EmptyString => false | String _ _ => true end.

(** [Array.isArray(message) ? message.join(', ') : message] *)
Definition messageText (m : Message) : string :=
  match m with
  | MsgString s => s
  | MsgArray l => join ", " l
  end.

(** A [message] is truthy unless it is the empty string. *)
Definition messageTruthy (m : Message) : bool :=
  match m with
  | MsgString s => nonEmpty s
  | MsgArray _ => true
  end.

(** What [response.json()] rejects with on a body that is not JSON, and the
    error of calling [forEach] on a value that is not an array. *)
Definition jsonSyntaxError : string := "Unexpected end of JSON input".
Definition forEachTypeError : string := "tasks.forEach is not a function".

(** The data of the drag-and-drop event [handleTaskMove] reads: the ids of
    the column of origin and of the target column, and the [data-id] of the
    dragged node. *)
Record DragAndDropEvent : Type := {
  originalParent : string;
  targetParent : string;
  targetNode : string
}.

Section ViewModel.

(** The other side of [fetch]: any server, with any state. *)
Variable Srv : Type.
Variable fetch : Request -> Srv -> Outcome * Srv.

(** The component together with the server it talks to and the requests it
    has sent so far, oldest first. *)
Record System : Type := {
  view : View;
  server : Srv;
  sent : list Request
}.

Definition onView (f : View -> View) (s : System) : System :=
  {| view := f (view s); server := server s; sent := sent s |}.

(** [await fetch(...)] *)
Definition call (req : Request) (s : System) : Outcome * System :=
  let (out, srv) := fetch req (server s) in
  (out, {| view := view s; server := srv; sent := sent s ++ [req] |}).

(** The [catch] block of [fetchTasks]. *)
Definition fetchFailed (message : string) (v : View) : View :=
  setError
    (Some (if nonEmpty message then message
           else "Terjadi kesalahan saat menghubungi server."%string)) v.

Definition fetchTasks (s : System) : System :=
  let s := onView (setError None) s in
  let (out, s) := call GET_tasks s in
  let s :=
    match out with
    | Rejected m => onView (fetchFailed m) s
    | Fulfilled response =>
        if ok response then
          match body response with
          | JsonTasks tasks =>
              onView (fun v => fold_left place tasks (setLists [] [] [] v)) s
          | NoContent => onView (fetchFailed jsonSyntaxError) s
          | JsonTask _ | JsonError _ =>
              onView (fun v => fetchFailed forEachTypeError
                                 (setLists [] [] [] v)) s
          end
        else
          onView (fetchFailed
                    ("Gagal mengambil data: " ++ statusText response)%string) s
    end in
  onView (fun v => if isLoading v then setLoading false v else v) s.

Definition addTask (s : System) : System :=
  if negb (truthy (trim (newTaskTitle (view s)))) then s
  else
    let taskData := trim (newTaskTitle (view s)) in
    let (out, s) := call (POST_tasks taskData) s in
    match out with
    | Rejected m => onView (setError (Some m)) s
    | Fulfilled response =>
        if ok response then
          let s := fetchTasks s in
          onView (setTitle []) s
        else
          let message :=
            match body response with
            | JsonError (Some m) =>
                if messageTruthy m then messageText m
                else "Gagal menambahkan tugas baru."%string
            | _ => "Gagal menambahkan tugas baru."%string
            end in
          onView (setError (Some message)) s
    end.

Definition deleteTask (taskToDelete : Task) (s : System) : System :=
  let (out, s) := call (DELETE_task (id taskToDelete)) s in
  match out with
  | Rejected m => onView (setError (Some m)) s
  | Fulfilled response =>
      if ok response then onView (removeFromLists (id taskToDelete)) s
      else onView (setError (Some "Gagal menghapus tugas."%string)) s
  end.

Definition handleTaskMove (event : DragAndDropEvent) (s : System) : System :=
  let originalBoardId := originalParent event in
  let newBoardId := targetParent event in
  let taskId := targetNode event in
  if (originalBoardId =? newBoardId)%string then s
  else
    let (out, s) := call (PATCH_task taskId newBoardId) s in
    let s :=
      match out with
      | Rejected m => onView (setError (Some m)) s
      | Fulfilled response =>
          if ok response then s
          else
            let message :=
              match body response with
              | JsonError (Some m) => messageText m
              | NoContent => "Gagal memindahkan tugas."%string
              | _ => EmptyString
              end in
            onView (setError (Some message)) s
      end in
    fetchTasks s.

End ViewModel.

(** The client in front of the API of this repository, for one interaction
    in which the server's clock reads [now e] and the next generated key is
    [uuid e]. *)
Definition api (e : Orm.Env) (req : Request) (db : Orm.Table)
  : Outcome * Orm.Table :=
  let (response, db') := TaskController.handle req e db in
  (Fulfilled response, db').

End App.

(* ===================================================================== *)
(** ** Vocabulary of the properties *)
(* ===================================================================== *)

Module Spec.
Import JS Orm.

(** [id] is the primary key of the table: no two rows share it. *)
Definition wf (db : Table) : Prop := NoDup (map id db).

(** [i] is the key of a stored row, deleted or not. *)
Definition stored (i : string) (db : Table) : Prop := In i (map id db).

(** What an update of the status of row [i] may touch: in the row itself
    nothing but [status] and [updatedAt]; in any other row nothing. *)
Definition statusFrame (i : string) (old new : Task) : Prop :=
  id new = id old /\ title new = title old /\
  createdAt new = createdAt old /\ deletedAt new = deletedAt old /\
  (id old <> i -> new = old).

(** What a soft delete of row [i] at time [t] does: the row stays, with its
    delete date and its update date set to [t] and nothing else touched; any
    other row is as it was. *)
Definition softDeleted (i : string) (t : Z) (old new : Task) : Prop :=
  (id old = i ->
     new = {| id := id old; title := title old; status := status old;
              createdAt := createdAt old; updatedAt := t;
              deletedAt := Some t |}) /\
  (id old <> i -> new = old).

(** A change of the table in which row [i] differs at most in its delete
    date and no other row differs at all. *)
Definition onlyDeletedAtSet (i : string) (db db' : Table) : Prop :=
  Forall2 (fun old new =>
             id new = id old /\ title new = title old /\
             status new = status old /\ createdAt new = createdAt old /\
             updatedAt new = updatedAt old /\
             (id old <> i -> new = old)) db db'.

(** [create] returns the task it has appended to the table, with status
    todo, the title of the DTO and no delete date. *)
Definition createdAsGiven (dto : Dto.CreateTaskDto) (e : Env) (db : Table)
  : Prop :=
  exists task,
    TaskService.create dto e db = (Ok task, db ++ [task]) /\
    status task = TODO /\ title task = Dto.title dto /\
    deletedAt task = None.

(** The spelling of a uuid does not matter to the store: letters A to F
    stand for a to f. *)
Definition lowerHex (c : ascii) : ascii :=
  let n := nat_of_ascii c in
  if (65 <=? n) && (n <=? 70) then ascii_of_nat (n + 32) else c.

Fixpoint canon (s : string) : string :=
  match s with
  | EmptyString => EmptyString
  | String c r => String (lowerHex c) (canon r)
  end.

(** No stored row carries the uuid [i], however spelled. *)
Definition absentByValue (i : string) (db : Table) : Prop :=
  forall r, In r db -> canon (id r) <> canon i.

(** [i] is spelled as the store spells it: every row that carries the
    uuid carries it in this spelling. *)
Definition spelledAsStored (i : string) (db : Table) : Prop :=
  forall r, In r db -> canon (id r) = canon i -> id r = i.



(** The three lists a fetched task list is sorted into. *)
Definition statusIs (s : string) (t : Http.Task) : bool :=
  (Http.status t =? s)%string.

Definition partition (tasks : list Http.Task)
  : list Http.Task * list Http.Task * list Http.Task :=
  (filter (statusIs "todo") tasks,
   filter (statusIs "progress") tasks,
   filter (statusIs "done") tasks).

End Spec.

(* ===================================================================== *)
(** ** Sample data *)
(* ===================================================================== *)

Module Sample.
Import JS Orm.

Definition idA : string := "11111111-1111-4111-8111-111111111111".
Definition idB : string := "22222222-2222-4222-8222-222222222222".
Definition idC : string := "33333333-3333-4333-8333-333333333333".
Definition idD : string := "44444444-4444-4444-8444-444444444444".

Definition rowA : Task :=
  {| id := idA; title := str "write report"; status := TODO;
     createdAt := 1000; updatedAt := 1000; deletedAt := None |}.

(** A row that was soft-deleted at time 1500. *)
Definition rowB : Task :=
  {| id := idB; title := str "book room"; status := PROGRESS;
     createdAt := 1100; updatedAt := 1500; deletedAt := Some 1500%Z |}.

Definition rowC : Task :=
  {| id := idC; title := str "send invoice"; status := DONE;
     createdAt := 1200; updatedAt := 1300; deletedAt := None |}.

Definition db0 : Table := [rowA; rowB; rowC].

Definition env0 : Env := {| now := 2000; uuid := idD |}.

End Sample.

(* ===================================================================== *)
(** ** Vocabulary of the client properties, and sample systems *)
(* ===================================================================== *)

Module ClientSpec.
Import JS Http App.

(** The run [m] from [s] has sent one request other than the list request
    and has then gone through [fetchTasks] on the server as that request left
    it: its lists, server and request log are those [fetchTasks] leaves. *)
Definition refetches (Srv : Type) (fetch : Request -> Srv -> Outcome * Srv)
           (m : System Srv -> System Srv) (s : System Srv) : Prop :=
  exists (mid : System Srv) (request : Request),
    request <> GET_tasks /\
    server mid = snd (fetch request (server s)) /\
    sent mid = sent s ++ [request] /\
    lists (view (m s)) = lists (view (fetchTasks fetch mid)) /\
    server (m s) = server (fetchTasks fetch mid) /\
    sent (m s) = sent (fetchTasks fetch mid).

(** [l'] is [l] without its first task of id [i]. *)
Definition removedFirst (i : string) (l l' : list Task) : Prop :=
  exists pre t post,
    l = pre ++ t :: post /\ id t = i /\
    (forall x, In x pre -> id x <> i) /\
    l' = pre ++ post.

(** No task of [l] has the id [i]. *)
Definition lacks (i : string) (l : list Task) : Prop :=
  forall x, In x l -> id x <> i.

(** The board [v'] is the board [v] with the task of id [i] taken out of the
    list that holds it: the first of the lists todo, progress, done that
    holds the id has lost its first task of that id, and nothing else has
    changed; a board that does not hold the id is unchanged. *)
Definition removedFromBoard (i : string) (v v' : View) : Prop :=
  newTaskTitle v' = newTaskTitle v /\
  isLoading v' = isLoading v /\
  errorMessage v' = errorMessage v /\
  ((removedFirst i (todoTasks v) (todoTasks v') /\
    progressTasks v' = progressTasks v /\ doneTasks v' = doneTasks v) \/
   (lacks i (todoTasks v) /\ todoTasks v' = todoTasks v /\
    removedFirst i (progressTasks v) (progressTasks v') /\
    doneTasks v' = doneTasks v) \/
   (lacks i (todoTasks v) /\ lacks i (progressTasks v) /\
    todoTasks v' = todoTasks v /\ progressTasks v' = progressTasks v /\
    removedFirst i (doneTasks v) (doneTasks v')) \/
   (lacks i (todoTasks v) /\ lacks i (progressTasks v) /\
    lacks i (doneTasks v) /\ lists v' = lists v)).

(** A client in front of the sample table.  Its progress list still shows
    the task another client has deleted since the last fetch. *)
Definition view0 : View :=
  {| todoTasks := [TaskController.toJSON Sample.rowA];
     progressTasks := [TaskController.toJSON Sample.rowB];
     doneTasks := [TaskController.toJSON Sample.rowC];
     newTaskTitle := str " call bank ";
     isLoading := false;
     errorMessage := None |}.

Definition sys0 : System Orm.Table :=
  {| view := view0; server := Sample.db0; sent := [] |}.

(** The same client with only white space typed into the input. *)
Definition sysBlank : System Orm.Table :=
  {| view := setTitle (str "   ") view0; server := Sample.db0; sent := [] |}.

(** Some other server, whose list holds a task with a status the client
    does not know. *)
Definition archived : Task :=
  {| id := Sample.idD; title := str "old task"; status := "archived" |}.

Definition foreign (req : Request) (srv : unit) : Outcome * unit :=
  (Fulfilled {| code := 200; statusText := "OK";
                body := JsonTasks [TaskController.toJSON Sample.rowA;
                                   archived;
                                   TaskController.toJSON Sample.rowC] |},
   srv).

Definition sysForeign : System unit :=
  {| view := view0; server := tt; sent := [] |}.

(** Dragging the first sample task from the todo column to the done
    column. *)
Definition drag0 : DragAndDropEvent :=
  {| originalParent := "todo"; targetParent := "done";
     targetNode := Sample.idA |}.

End ClientSpec.

(* ===================================================================== *)
(** ** Vocabulary of the properties of whole runs *)
(* ===================================================================== *)

Module History.
Import JS Orm TaskService.

(** What no operation of the service changes in a stored row: its key, its
    title and its creation date; and a delete date, once set, stays set. *)
Definition keeps (old new : Task) : Prop :=
  id new = id old /\ title new = title old /\
  createdAt new = createdAt old /\
  (deletedAt old <> None -> deletedAt new <> None).

(** The key generated for a create is not in use when the create runs. *)
Definition freshFor (op : Op) (e : Env) (db : Table) : Prop :=
  match op with
  | OpCreate _ => ~ Spec.stored (uuid e) db
  | _ => True
  end.

Fixpoint freshRun (ops : list (Op * Env)) (db : Table) : Prop :=
  match ops with
  | [] => True
  | (op, e) :: rest => freshFor op e db /\ freshRun rest (exec op e db)
  end.

(** The rows the list operation shows. *)
Definition visible (db : Table) : list Task := filter notDeleted db.

(** A run on the sample table: a create under a key not yet in use, a status
    update of the first row, and the removal of the row just created. *)
Definition run0 : list (Op * Env) :=
  [(OpCreate {| Dto.title := str "buy milk" |}, Sample.env0);
   (OpUpdateStatus Sample.idA DONE, {| now := 2500; uuid := Sample.idD |});
   (OpRemove Sample.idD, {| now := 3000; uuid := Sample.idD |})].

End History.

Module Sync.
Import JS Http App.

(** The refs as the component declares them: three empty lists, an empty
    input, the loading flag up, no error. *)
Definition initial : View :=
  {| todoTasks := []; progressTasks := []; doneTasks := [];
     newTaskTitle := []; isLoading := true; errorMessage := None |}.

(** The board shows what the list operation returns for this table: each
    list holds the visible tasks of its status, in table order. *)
Definition inSync (v : View) (db : Orm.Table) : Prop :=
  lists v =
  Spec.partition (map TaskController.toJSON (History.visible db)).

(** What the user can make the component do. *)
Inductive Action : Type :=
| Mount
| Add
| Delete (task : Task)
| Move (event : DragAndDropEvent).

Section Actions.
Variable Srv : Type.
Variable fetch : Request -> Srv -> Outcome * Srv.

(** [onMounted(async () => { await fetchTasks() })] *)
Definition onMounted (s : System Srv) : System Srv := fetchTasks fetch s.

Definition perform (a : Action) (s : System Srv) : System Srv :=
  match a with
  | Mount => onMounted s
  | Add => addTask fetch s
  | Delete task => deleteTask fetch task s
  | Move event => handleTaskMove fetch event s
  end.

End Actions.

(** A client that has just been created, in front of the sample table. *)
Definition sysNew : System Orm.Table :=
  {| view := initial; server := Sample.db0; sent := [] |}.

(** A client whose board shows the sample table as the server lists it. *)
Definition sysSynced : System Orm.Table :=
  {| view := {| todoTasks := [TaskController.toJSON Sample.rowA];
                progressTasks := [];
                doneTasks := [TaskController.toJSON Sample.rowC];
                newTaskTitle := str " call bank ";
                isLoading := false;
                errorMessage := None |};
     server := Sample.db0; sent := [] |}.

(** A board that shows the first sample task twice, under todo and under
    done, in front of a server that answers every delete with 204. *)
Definition accepting (req : Request) (srv : unit) : Outcome * unit :=
  (Fulfilled {| code := 204; statusText := "No Content"; body := NoContent |},
   srv).

Definition sysTwice : System unit :=
  {| view := {| todoTasks := [TaskController.toJSON Sample.rowA];
                progressTasks := [];
                doneTasks := [TaskController.toJSON Sample.rowC;
                              TaskController.toJSON Sample.rowA];
                newTaskTitle := [];
                isLoading := false;
                errorMessage := None |};
     server := tt; sent := [] |}.

(** A server that is down: every request is rejected. *)
Definition down (req : Request) (srv : unit) : Outcome * unit :=
  (Rejected "Failed to fetch", srv).

(** A server that answers every request with an error response. *)
Definition failing (req : Request) (srv : unit) : Outcome * unit :=
  (Fulfilled {| code := 500; statusText := "Internal Server Error";
                body := JsonError (Some (MsgArray ["title too long"%string;
                                                   "try again"%string])) |},
   srv).

(** A server that answers 200 with the JSON of an error object. *)
Definition confused (req : Request) (srv : unit) : Outcome * unit :=
  (Fulfilled {| code := 200; statusText := "OK";
                body := JsonError None |}, srv).

Definition sysUnit : System unit :=
  {| view := ClientSpec.view0; server := tt; sent := [] |}.

End Sync.

(* ===================================================================== *)
(** * Properties *)
(* ===================================================================== *)

Unset Implicit Arguments.

(** ** Concrete runs *)

Example trim_both_ends : JS.trim (JS.str "  buy  milk ") = JS.str "buy  milk".
Proof. reflexivity. Qed.

Example trim_line_ends :
  JS.trim [9%N; 160%N; 8232%N; 65279%N; 120%N; 10%N; 13%N] = [120%N].
Proof. reflexivity. Qed.

Example schema_trims : Dto.CreateTaskSchema (JS.str " buy milk ") =
                       Some {| Dto.title := JS.str "buy milk" |}.
Proof. reflexivity. Qed.

Example schema_refuses_empty : Dto.CreateTaskSchema [] = None.
Proof. reflexivity. Qed.

Example schema_refuses_256 : Dto.CreateTaskSchema (repeat 97%N 256) = None.
Proof. vm_compute. reflexivity. Qed.

Example uuid_accepted : TaskController.isUUID Sample.idA = true.
Proof. reflexivity. Qed.

Example uuid_refused : TaskController.isUUID "undefined" = false.
Proof. reflexivity. Qed.

Example list_hides_deleted_row :
  fst (TaskService.findAll Sample.env0 Sample.db0) =
  Orm.Ok [Sample.rowA; Sample.rowC].
Proof. reflexivity. Qed.

Example unpaired_surrogate_replaced :
  JS.toWellFormed [97%N; 55296%N; 98%N; 56320%N] =
  [97%N; 65533%N; 98%N; 65533%N].
Proof. reflexivity. Qed.

Example surrogate_pair_kept :
  JS.toWellFormed [55357%N; 56832%N] = [55357%N; 56832%N] /\
  JS.codePoints [55357%N; 56832%N] = 1.
Proof. split; reflexivity. Qed.

Example create_refuses_nul :
  TaskService.create {| Dto.title := [110%N; 0%N] |} Sample.env0 Sample.db0 =
  (Orm.Err Orm.QueryFailedError, Sample.db0).
Proof. reflexivity. Qed.

(** ** Trimming *)

Section TrimFacts.
Import JS.

Lemma trimStart_blank (s : jsstring) : blank s = true -> trimStart s = [].
Proof.
  induction s as [|c r IH]; simpl; intro H; [reflexivity|].
  apply andb_prop in H. destruct H as [Hc Hr].
  rewrite Hc. auto.
Qed.

Lemma trim_blank (s : jsstring) : blank s = true -> trim s = [].
Proof.
  intro H. unfold trim, trimEnd.
  rewrite (trimStart_blank s H). reflexivity.
Qed.

Lemma trimStart_length (s : jsstring) :
  List.length (trimStart s) <= List.length s.
Proof.
  induction s as [|c r IH]; simpl; [lia|].
  destruct (isWhiteSpace c); simpl; lia.
Qed.

Lemma trim_length (s : jsstring) : List.length (trim s) <= List.length s.
Proof.
  unfold trim, trimEnd. rewrite length_rev.
  etransitivity; [apply trimStart_length|].
  rewrite length_rev. apply trimStart_length.
Qed.

End TrimFacts.

(** ** The create-task schema *)

Section SchemaFacts.
Import JS Zod Dto.

(** What the schema does, check by check: the two length checks see the
    input as it came, and the trimmed input is what is kept. *)
Lemma CreateTaskSchema_spec (input : jsstring) (dto : CreateTaskDto) :
  CreateTaskSchema input = Some dto <->
  1 <= List.length input <= 255 /\ title dto = trim input.
Proof.
  unfold CreateTaskSchema, safeParse, titleSchema. cbn [run_checks].
  destruct (Nat.ltb_spec (List.length input) 1) as [H1|H1];
    destruct (Nat.ltb_spec 255 (List.length input)) as [H2|H2];
    split; intro H; try discriminate; try lia.
  - inversion H; subst. simpl. split; [lia|reflexivity].
  - destruct dto as [t]. simpl in H. destruct H as [_ ->]. reflexivity.
Qed.

End SchemaFacts.

(** C4.  The claim: the schema accepts a string exactly when the title it
    stores is non-empty and at most 255 characters long, so that no accepted
    input yields an empty title.  The schema trims after its two length
    checks: a single space passes [min(1)] and is stored as the empty title,
    and a space followed by 255 letters is refused although its trimmed
    title has 255 characters. *)
Theorem CreateTaskSchema_checks_before_trim :
  Dto.CreateTaskSchema (JS.str " ") = Some {| Dto.title := [] |} /\
  Dto.CreateTaskSchema (JS.str " " ++ repeat 97%N 255) = None /\
  List.length (JS.trim (JS.str " " ++ repeat 97%N 255)) = 255.
Proof. repeat split; vm_compute; reflexivity. Qed.

(** ** The repository and the service *)

Section ServiceFacts.
Import JS Orm TaskService Spec.

Lemma hasId_true (i : string) (r : Task) : hasId i r = true <-> id r = i.
Proof. unfold hasId. apply String.eqb_eq. Qed.

Lemma hasId_false (i : string) (r : Task) : hasId i r = false <-> id r <> i.
Proof. unfold hasId. apply String.eqb_neq. Qed.

Lemma absent_hasId (i : string) (db : Table) :
  ~ stored i db -> forall r, In r db -> hasId i r = false.
Proof.
  intros H r Hr. apply hasId_false. intro E. apply H.
  subst i. apply in_map. exact Hr.
Qed.

Lemma map_where_absent (f : Task -> Task) (i : string) (db : Table) :
  (forall r, In r db -> hasId i r = false) ->
  map (fun r => if hasId i r then f r else r) db = db.
Proof.
  induction db as [|a db IH]; simpl; intro H; [reflexivity|].
  rewrite (H a) by (left; reflexivity).
  f_equal. apply IH. intros r Hr. apply H. right. exact Hr.
Qed.

Lemma filter_absent (i : string) (db : Table) :
  (forall r, In r db -> hasId i r = false) -> filter (hasId i) db = [].
Proof.
  induction db as [|a db IH]; simpl; intro H; [reflexivity|].
  rewrite (H a) by (left; reflexivity).
  apply IH. intros r Hr. apply H. right. exact Hr.
Qed.

Lemma find_absent (q : Task -> bool) (i : string) (db : Table) :
  (forall r, In r db -> hasId i r = false) ->
  List.find (fun r => hasId i r && q r) db = None.
Proof.
  induction db as [|a db IH]; simpl; intro H; [reflexivity|].
  rewrite (H a) by (left; reflexivity). simpl.
  apply IH. intros r Hr. apply H. right. exact Hr.
Qed.

Lemma filter_stored (i : string) (db : Table) :
  stored i db -> List.length (filter (hasId i) db) <> 0.
Proof.
  unfold stored. induction db as [|a db IH]; simpl; intro H; [contradiction|].
  destruct (hasId i a) eqn:E; simpl; [lia|].
  destruct H as [H|H]; [|auto].
  apply hasId_false in E. congruence.
Qed.

Lemma find_stored (i : string) (db : Table) :
  stored i db -> exists old, List.find (hasId i) db = Some old.
Proof.
  unfold stored. induction db as [|a db IH]; simpl; intro H; [contradiction|].
  destruct (hasId i a) eqn:E; [eauto|].
  destruct H as [H|H]; [|auto].
  apply hasId_false in E. congruence.
Qed.

(** Under the primary-key constraint a key names one row. *)
Lemma wf_unique (db : Table) (a b : Task) :
  wf db -> In a db -> In b db -> id a = id b -> a = b.
Proof.
  unfold wf. induction db as [|r db IH]; simpl; intros W Ha Hb E;
    [contradiction|].
  inversion W as [|x l Hnot Wl]; subst.
  destruct Ha as [Ha|Ha], Hb as [Hb|Hb]; subst.
  - reflexivity.
  - exfalso. apply Hnot. rewrite E. apply in_map. exact Hb.
  - exfalso. apply Hnot. rewrite <- E. apply in_map. exact Ha.
  - auto.
Qed.

Lemma Forall2_map_self (R : Task -> Task -> Prop) (f : Task -> Task)
      (db : Table) :
  (forall r, In r db -> R r (f r)) -> Forall2 R db (map f db).
Proof.
  induction db as [|a db IH]; simpl; intro H; constructor.
  - apply H. left. reflexivity.
  - apply IH. intros r Hr. apply H. right. exact Hr.
Qed.

Lemma statusFrame_refl (i : string) (r : Task) : statusFrame i r r.
Proof. unfold statusFrame. tauto. Qed.

(** The table effect of each repository call. *)

Lemma findOneBy_spec (i : string) (e : Env) (db : Table) :
  exists o, Repository_findOneBy i e db = (Ok o, db) /\
    match o with
    | Some t => In t db /\ id t = i /\ deletedAt t = None
    | None => forall r, In r db -> id r = i -> deletedAt r <> None
    end.
Proof.
  unfold Repository_findOneBy.
  destruct (List.find _ db) as [t|] eqn:F; eexists; split; try reflexivity.
  - apply find_some in F. destruct F as [Hin Hc].
    apply andb_prop in Hc. destruct Hc as [H1 H2].
    apply hasId_true in H1. unfold notDeleted in H2.
    destruct (deletedAt t); [discriminate|]. auto.
  - intros r Hr E D.
    pose proof (find_none _ _ F r Hr) as N. simpl in N.
    apply hasId_true in E. unfold notDeleted in N.
    rewrite E, D in N. discriminate.
Qed.

Lemma softDelete_length (i : string) (e : Env) (db : Table) :
  List.length (snd (Repository_softDelete i e db)) = List.length db.
Proof. unfold Repository_softDelete. simpl. apply length_map. Qed.

Lemma save_length (p : DeepPartial) (e : Env) (db : Table) :
  List.length db <= List.length (snd (Repository_save p e db)).
Proof.
  unfold Repository_save.
  destruct (match p_id p with Some i => List.find (hasId i) db | None => None end)
    as [old|].
  - destruct (Task_eq_dec _ old); simpl; [lia|].
    destruct (list_eq_dec N.eq_dec _ _); simpl.
    + unfold update_where_id. rewrite length_map. lia.
    + destruct (storable _); simpl; [|lia].
      unfold update_where_id. rewrite length_map. lia.
  - destruct (p_title p) as [t|]; simpl; [|lia].
    destruct (storable t); simpl; [|lia].
    rewrite length_app. simpl. lia.
Qed.

End ServiceFacts.

Section ServiceBehaviour.
Import JS Orm TaskService Spec.

Lemma find_unique (i : string) (db : Table) (row : Task) :
  wf db -> In row db -> id row = i -> List.find (hasId i) db = Some row.
Proof.
  intros W Hin Hid.
  destruct (find_stored i db) as [old F].
  { unfold stored. subst i. apply in_map. exact Hin. }
  rewrite F. f_equal.
  apply find_some in F. destruct F as [Ho Hi]. apply hasId_true in Hi.
  apply (wf_unique db old row W Ho Hin). congruence.
Qed.

(** [updateStatus] on a row that is stored and not marked deleted. *)
Lemma updateStatus_visible (i : string) (s : TaskStatus) (e : Env)
      (db : Table) (row : Task) :
  wf db -> In row db -> id row = i -> deletedAt row = None ->
  updateStatus i s e db =
  if Task_eq_dec (setStatus s row) row
  then (Ok (setStatus s row), db)
  else (Ok (touch (now e) (setStatus s row)),
        update_where_id i (touch (now e) (setStatus s row)) db).
Proof.
  intros W Hin Hid Hdel.
  unfold updateStatus, findOne, bind.
  destruct (findOneBy_spec i e db) as [o [F Ho]]. rewrite F.
  destruct o as [t|].
  - destruct Ho as (Ht & Hti & _).
    assert (t = row) by (apply (wf_unique db t row W Ht Hin); congruence).
    subst t. unfold ret, Repository_save.
    cbn [entity p_id setStatus id].
    rewrite (find_unique (id row) db row W Hin eq_refl).
    change (merge row (entity (setStatus s row))) with (setStatus s row).
    rewrite Hid.
    destruct (Task_eq_dec (setStatus s row) row); [reflexivity|].
    destruct (list_eq_dec N.eq_dec (title (setStatus s row)) (title row))
      as [_|C]; [reflexivity|].
    exfalso. apply C. reflexivity.
  - exfalso. exact (Ho row Hin Hid Hdel).
Qed.

(** [updateStatus] on a key no visible row carries: the key is not stored,
    or its row is marked deleted. *)
Lemma updateStatus_hidden (i : string) (s : TaskStatus) (e : Env)
      (db : Table) :
  (forall r, In r db -> id r = i -> deletedAt r <> None) ->
  updateStatus i s e db = (Err (NotFoundException (notFoundMessage i)), db).
Proof.
  intro H.
  unfold updateStatus, findOne, bind.
  destruct (findOneBy_spec i e db) as [o [F Ho]]. rewrite F.
  destruct o as [t|]; [|reflexivity].
  destruct Ho as (Ht & Hti & Hd). exfalso. exact (H t Ht Hti Hd).
Qed.

Lemma remove_stored (i : string) (e : Env) (db : Table) :
  stored i db ->
  remove i e db =
  (Ok tt, map (fun r => if hasId i r then markDeleted (now e) r else r) db).
Proof.
  intro H. unfold remove, bind, Repository_softDelete. cbn [affected].
  destruct (Nat.eqb_spec (List.length (filter (hasId i) db)) 0) as [E|E].
  - exfalso. exact (filter_stored i db H E).
  - reflexivity.
Qed.

Lemma remove_absent (i : string) (e : Env) (db : Table) :
  ~ stored i db ->
  remove i e db = (Err (NotFoundException (notFoundMessage i)), db).
Proof.
  intro H. unfold remove, bind, Repository_softDelete. cbn [affected].
  rewrite (filter_absent i db (absent_hasId i db H)).
  rewrite (map_where_absent _ i db (absent_hasId i db H)). reflexivity.
Qed.

Lemma exec_length (op : Op) (e : Env) (db : Table) :
  List.length db <= List.length (exec op e db).
Proof.
  destruct op as [dto| |i s|i]; unfold exec.
  - unfold create, bind, Repository_create.
    match goal with |- context [Repository_save ?p e db] =>
      pose proof (save_length p e db) as L;
      destruct (Repository_save p e db) as [[t|x] db'] end; exact L.
  - simpl. lia.
  - unfold updateStatus, findOne, bind.
    destruct (findOneBy_spec i e db) as [o [F _]]. rewrite F.
    destruct o as [t|]; [|simpl; lia].
    unfold ret at 1.
    match goal with |- context [Repository_save ?p e db] =>
      pose proof (save_length p e db) as L;
      destruct (Repository_save p e db) as [[t'|x] db'] end; exact L.
  - unfold remove, bind.
    pose proof (softDelete_length i e db) as L.
    destruct (Repository_softDelete i e db) as [[r|x] db']; simpl in L.
    + destruct (affected r =? 0); simpl; lia.
    + simpl. lia.
Qed.

Lemma run_length (ops : list (Op * Env)) (db : Table) :
  List.length db <= List.length (run ops db).
Proof.
  revert db. induction ops as [|[op e] ops IH]; intro db; simpl; [lia|].
  etransitivity; [apply (exec_length op e)|apply IH].
Qed.

End ServiceBehaviour.

(** ** The claims on the API service *)

Section ServiceClaims.
Import JS Orm TaskService Spec.

(** C1.  The list operation returns exactly the stored tasks whose
    [deletedAt] is not set, in table order, and leaves the table as it is; a
    stored task whose [deletedAt] is set is not in the result.  [GET /tasks]
    answers with the JSON of that list. *)
Theorem findAll_excludes_soft_deleted (e : Env) (db : Table) :
  exists tasks,
    findAll e db = (Ok tasks, db) /\
    tasks = filter notDeleted db /\
    (forall t, In t tasks <-> In t db /\ deletedAt t = None) /\
    (forall t, In t db -> deletedAt t <> None -> ~ In t tasks) /\
    TaskController.handle Http.GET_tasks e db =
      ({| Http.code := 200; Http.statusText := "OK";
          Http.body := Http.JsonTasks (map TaskController.toJSON tasks) |},
       db).
Proof.
  exists (filter notDeleted db).
  assert (M : forall t, In t (filter notDeleted db) <->
                        In t db /\ deletedAt t = None).
  { intro t. rewrite filter_In. unfold notDeleted.
    destruct (deletedAt t); intuition discriminate. }
  split; [reflexivity|]. split; [reflexivity|]. split; [exact M|].
  split; [|reflexivity].
  intros t _ D Hin. apply M in Hin. tauto.
Qed.

Lemma findAll_excludes_soft_deleted_witness :
  exists tasks,
    findAll Sample.env0 Sample.db0 = (Ok tasks, Sample.db0) /\
    tasks = [Sample.rowA; Sample.rowC] /\
    ~ In Sample.rowB tasks.
Proof.
  destruct (findAll_excludes_soft_deleted Sample.env0 Sample.db0)
    as (tasks & F & E & _ & N & _).
  exists tasks. split; [exact F|]. split; [exact E|].
  apply N.
  - simpl. right. left. reflexivity.
  - simpl. discriminate.
Defined.

(** C2 as stated fails: on the sample table [remove] sets the update date
    of the row as well as its delete date, so more than [deletedAt] has
    changed. *)
Lemma remove_touches_updatedAt :
  ~ onlyDeletedAtSet Sample.idA Sample.db0
      (snd (remove Sample.idA Sample.env0 Sample.db0)).
Proof.
  unfold onlyDeletedAtSet. intro H. vm_compute in H.
  inversion H as [|old new l l' K _]. subst.
  destruct K as (_ & _ & _ & _ & U & _). discriminate U.
Qed.

(** C2, amended.  For a key stored in the table, [remove] succeeds and
    removes no row: row by row the table after it is the table before it,
    the row with that key having its delete date and its update date set to
    the time of the call and every other column as before, and every other
    row identical.  No operation of the service, and no sequence of them,
    makes the table shorter. *)
Theorem remove_is_soft (i : string) (e : Env) (db : Table) :
  stored i db ->
  exists db',
    remove i e db = (Ok tt, db') /\
    Forall2 (softDeleted i (now e)) db db' /\
    List.length db' = List.length db /\
    (forall op e', List.length db <= List.length (exec op e' db)) /\
    (forall ops, List.length db <= List.length (run ops db)).
Proof.
  intro H. eexists. split; [apply (remove_stored i e db H)|].
  split; [|split; [apply length_map|split]].
  - apply Forall2_map_self. intros r _. unfold softDeleted.
    destruct (hasId i r) eqn:E.
    + apply hasId_true in E. split; [reflexivity|].
      intro N. contradiction.
    + apply hasId_false in E. split; [|reflexivity].
      intro N. contradiction.
  - intros op e'. apply exec_length.
  - intro ops. apply run_length.
Qed.

Lemma remove_is_soft_witness :
  stored Sample.idA Sample.db0 /\
  exists db',
    remove Sample.idA Sample.env0 Sample.db0 = (Ok tt, db') /\
    Forall2 (softDeleted Sample.idA 2000) Sample.db0 db' /\
    List.length db' = 3 /\
    (forall op e', 3 <= List.length (exec op e' Sample.db0)) /\
    (forall ops, 3 <= List.length (run ops Sample.db0)).
Proof.
  split.
  - simpl. left. reflexivity.
  - apply (remove_is_soft Sample.idA Sample.env0 Sample.db0).
    simpl. left. reflexivity.
Defined.

(** The title column counts characters, of which a string has no more than
    it has code units. *)
Lemma codePoints_le (t : jsstring) : codePoints t <= List.length t.
Proof.
  assert (G : forall n t, List.length t <= n ->
                          codePoints t <= List.length t).
  { induction n as [|n IH]; intros [|c r] L; simpl in *; try lia.
    destruct (isHighSurrogate c).
    - destruct r as [|d r']; simpl in *; [lia|].
      destruct (isLowSurrogate d).
      + pose proof (IH r' ltac:(lia)). lia.
      + pose proof (IH (d :: r') ltac:(simpl; lia)). simpl in *. lia.
    - pose proof (IH r ltac:(lia)). lia. }
  apply (G (List.length t)). lia.
Qed.

(** The two outcomes of [create]. *)
Lemma create_cases (dto : Dto.CreateTaskDto) (e : Env) (db : Table) :
  (storable (Dto.title dto) = true ->
   create dto e db =
   (Ok {| id := uuid e; title := Dto.title dto; status := TODO;
          createdAt := now e; updatedAt := now e; deletedAt := None |},
    db ++ [{| id := uuid e; title := toWellFormed (Dto.title dto);
              status := TODO; createdAt := now e; updatedAt := now e;
              deletedAt := None |}])) /\
  (storable (Dto.title dto) = false ->
   create dto e db = (Err QueryFailedError, db)).
Proof.
  unfold create, bind, Repository_create, Repository_save, ret. simpl.
  split; intro S; rewrite S; reflexivity.
Qed.

Lemma valid_storable (input : jsstring) (dto : Dto.CreateTaskDto) :
  Dto.CreateTaskSchema input = Some dto ->
  storable (Dto.title dto) = negb (hasNul (Dto.title dto)).
Proof.
  intro H. apply CreateTaskSchema_spec in H. destruct H as [L T].
  unfold storable.
  replace (codePoints (Dto.title dto) <=? 255) with true;
    [apply andb_true_r|].
  symmetry. apply Nat.leb_le.
  pose proof (codePoints_le (Dto.title dto)).
  pose proof (trim_length input). rewrite <- T in *. lia.
Qed.

(** C3 as stated fails on a title that holds an unpaired surrogate: the
    schema accepts it and [create] succeeds, but the row it persists holds
    U+FFFD in its place, so the persisted task does not have the given
    title. *)
Lemma create_stores_replacement_character :
  Dto.CreateTaskSchema [55296%N] = Some {| Dto.title := [55296%N] |} /\
  ~ createdAsGiven {| Dto.title := [55296%N] |} Sample.env0 Sample.db0.
Proof.
  split; [reflexivity|].
  intros [task (C & _)]. vm_compute in C.
  injection C as E1 E2. subst task. discriminate E2.
Qed.

(** C3, amended.  For a DTO the schema accepted: when the title holds a NUL
    character [create] throws and persists nothing; otherwise it succeeds,
    the task it returns has status todo, the title of the DTO and no delete
    date (the key is the generated one and both dates are the current time),
    and the row it appends to the table is that task with every unpaired
    surrogate of the title stored as U+FFFD, listed from then on.  For a
    title without unpaired surrogates the appended row is the returned task
    itself. *)
Theorem create_defaults (input : jsstring) (dto : Dto.CreateTaskDto)
        (e : Env) (db : Table) :
  Dto.CreateTaskSchema input = Some dto ->
  (hasNul (Dto.title dto) = true ->
     create dto e db = (Err QueryFailedError, db)) /\
  (hasNul (Dto.title dto) = false ->
     exists task,
       create dto e db =
         (Ok task,
          db ++ [{| id := id task; title := toWellFormed (Dto.title dto);
                    status := status task; createdAt := createdAt task;
                    updatedAt := updatedAt task;
                    deletedAt := deletedAt task |}]) /\
       status task = TODO /\
       title task = Dto.title dto /\
       deletedAt task = None /\
       id task = uuid e /\ createdAt task = now e /\ updatedAt task = now e /\
       (forall e', exists tasks,
          fst (findAll e' (snd (create dto e db))) = Ok tasks /\
          In {| id := id task; title := toWellFormed (Dto.title dto);
                status := TODO; createdAt := createdAt task;
                updatedAt := updatedAt task; deletedAt := None |} tasks)) /\
  (hasNul (Dto.title dto) = false ->
   toWellFormed (Dto.title dto) = Dto.title dto ->
   createdAsGiven dto e db).
Proof.
  intro V. pose proof (valid_storable input dto V) as S.
  destruct (create_cases dto e db) as [C1 C2].
  split; [|split].
  - intro N. apply C2. rewrite S, N. reflexivity.
  - intro N. rewrite S, N in C1. specialize (C1 eq_refl).
    eexists. split; [exact C1|]. simpl. repeat split.
    intro e'. rewrite C1. unfold findAll, Repository_find. simpl.
    eexists. split; [reflexivity|].
    rewrite filter_app. apply in_or_app. right. simpl. left. reflexivity.
  - intros N W. rewrite S, N in C1. specialize (C1 eq_refl).
    unfold createdAsGiven. eexists. split.
    + rewrite C1, W. reflexivity.
    + simpl. repeat split.
Qed.

Lemma create_defaults_witness :
  Dto.CreateTaskSchema (str " buy milk ") =
    Some {| Dto.title := str "buy milk" |} /\
  createdAsGiven {| Dto.title := str "buy milk" |} Sample.env0 Sample.db0 /\
  create {| Dto.title := [110%N; 0%N] |} Sample.env0 Sample.db0 =
    (Err QueryFailedError, Sample.db0).
Proof.
  split; [reflexivity|]. split.
  - apply (create_defaults (str " buy milk ") {| Dto.title := str "buy milk" |}
             Sample.env0 Sample.db0); reflexivity.
  - apply (create_defaults [110%N; 0%N] {| Dto.title := [110%N; 0%N] |}
             Sample.env0 Sample.db0); reflexivity.
Defined.

End ServiceClaims.

Section StatusClaims.
Import JS Orm TaskService Spec.

Lemma Forall2_statusFrame_refl (i : string) (db : Table) :
  Forall2 (statusFrame i) db db.
Proof.
  induction db as [|r db IH]; constructor;
    [apply statusFrame_refl|exact IH].
Qed.

(** In a table that respects the primary key, either the row of a stored
    key is visible, or every row with that key is marked deleted. *)
Lemma stored_cases (i : string) (db : Table) :
  wf db -> stored i db ->
  (exists row, In row db /\ id row = i /\ deletedAt row = None) \/
  (forall r, In r db -> id r = i -> deletedAt r <> None).
Proof.
  intros W H. unfold stored in H. apply in_map_iff in H.
  destruct H as [row [Hid Hin]].
  destruct (deletedAt row) as [d|] eqn:D.
  - right. intros r Hr Hri.
    assert (r = row) by (apply (wf_unique db r row W Hr Hin); congruence).
    subst r. rewrite D. discriminate.
  - left. exists row. auto.
Qed.

(** C7.  For a stored key and any status, [updateStatus] touches nothing
    but the status and the update date of the row with that key: row by row
    the table after it has the keys, titles, creation dates and delete dates
    of the table before it, and every row with another key is identical.
    When the row is not marked deleted the call returns the stored row,
    which then carries the requested status. *)
Theorem updateStatus_frame (i : string) (s : TaskStatus) (e : Env)
        (db : Table) :
  wf db -> stored i db ->
  Forall2 (statusFrame i) db (snd (updateStatus i s e db)) /\
  (forall row, In row db -> id row = i -> deletedAt row = None ->
     exists task,
       fst (updateStatus i s e db) = Ok task /\
       In task (snd (updateStatus i s e db)) /\
       id task = i /\ status task = s).
Proof.
  intros W H.
  assert (V : forall row, In row db -> id row = i -> deletedAt row = None ->
              Forall2 (statusFrame i) db (snd (updateStatus i s e db)) /\
              exists task,
                fst (updateStatus i s e db) = Ok task /\
                In task (snd (updateStatus i s e db)) /\
                id task = i /\ status task = s).
  { intros row Hin Hid Hdel.
    rewrite (updateStatus_visible i s e db row W Hin Hid Hdel).
    destruct (Task_eq_dec (setStatus s row) row) as [E|E]; simpl.
    - split; [apply Forall2_statusFrame_refl|].
      exists (setStatus s row).
      split; [reflexivity|]. split; [rewrite E; exact Hin|].
      split; [exact Hid|reflexivity].
    - split.
      + unfold update_where_id. apply Forall2_map_self. intros r Hr.
        destruct (hasId i r) eqn:Hi.
        * apply hasId_true in Hi.
          assert (r = row)
            by (apply (wf_unique db r row W Hr Hin); congruence).
          subst r. unfold statusFrame. simpl.
          repeat split; try reflexivity. intro N. contradiction.
        * apply statusFrame_refl.
      + exists (touch (now e) (setStatus s row)).
        split; [reflexivity|]. split; [|split; [exact Hid|reflexivity]].
        unfold update_where_id. apply in_map_iff.
        exists row. split; [|exact Hin].
        replace (hasId i row) with true; [reflexivity|].
        symmetry. apply hasId_true. exact Hid. }
  split.
  - destruct (stored_cases i db W H) as [[row (Hin & Hid & Hdel)]|Hhid].
    + apply (V row Hin Hid Hdel).
    + rewrite (updateStatus_hidden i s e db Hhid). simpl.
      apply Forall2_statusFrame_refl.
  - intros row Hin Hid Hdel. apply (V row Hin Hid Hdel).
Qed.

Lemma sample_wf : wf Sample.db0.
Proof.
  unfold wf. simpl.
  repeat constructor; simpl; intuition discriminate.
Defined.

Lemma updateStatus_frame_witness :
  Forall2 (statusFrame Sample.idA) Sample.db0
          (snd (updateStatus Sample.idA DONE Sample.env0 Sample.db0)) /\
  (forall row, In row Sample.db0 -> id row = Sample.idA ->
     deletedAt row = None ->
     exists task,
       fst (updateStatus Sample.idA DONE Sample.env0 Sample.db0) = Ok task /\
       In task (snd (updateStatus Sample.idA DONE Sample.env0 Sample.db0)) /\
       id task = Sample.idA /\ status task = DONE).
Proof.
  apply (updateStatus_frame Sample.idA DONE Sample.env0 Sample.db0).
  - exact sample_wf.
  - simpl. left. reflexivity.
Defined.


Lemma absentByValue_not_stored (i : string) (db : Table) :
  absentByValue i db -> ~ stored i db.
Proof.
  intros A H. unfold stored in H. apply in_map_iff in H.
  destruct H as [r [E Hr]]. apply (A r Hr). rewrite E. reflexivity.
Qed.


Lemma sample_absent : absentByValue Sample.idD Sample.db0.
Proof.
  intros r H C. simpl in H.
  destruct H as [H|[H|[H|H]]]; try contradiction; subst r;
    vm_compute in C; discriminate C.
Defined.


End StatusClaims.

(** ** The primary key is kept *)

Section KeyInvariant.
Import JS Orm TaskService Spec.

Lemma ids_update_where (i : string) (new : Task) (db : Table) :
  id new = i -> map id (update_where_id i new db) = map id db.
Proof.
  intro E. unfold update_where_id.
  induction db as [|r db IH]; simpl; [reflexivity|].
  rewrite IH. destruct (hasId i r) eqn:H; [|reflexivity].
  apply hasId_true in H. congruence.
Qed.

Lemma ids_softDelete (i : string) (t : Z) (db : Table) :
  map id (map (fun r => if hasId i r then markDeleted t r else r) db) =
  map id db.
Proof.
  induction db as [|r db IH]; simpl; [reflexivity|].
  rewrite IH. destruct (hasId i r); reflexivity.
Qed.

Lemma wf_snoc (db : Table) (row : Task) :
  wf db -> ~ stored (id row) db -> wf (db ++ [row]).
Proof.
  unfold wf, stored. intros W N.
  rewrite map_app. simpl.
  apply NoDup_rev in W. rewrite <- (rev_involutive (map id db ++ [id row])).
  apply NoDup_rev. rewrite rev_app_distr. simpl.
  constructor; [|exact W].
  intro C. apply N. apply in_rev. exact C.
Qed.

(** Every operation of the service keeps the primary key unique, provided
    the key generated for a new row is not yet in use. *)
Lemma exec_wf (op : Op) (e : Env) (db : Table) :
  wf db -> ~ stored (uuid e) db -> wf (exec op e db).
Proof.
  intros W N. destruct op as [dto| |i s|i]; unfold exec.
  - destruct (create_cases dto e db) as [C1 C2].
    destruct (storable (Dto.title dto)).
    + rewrite (C1 eq_refl). simpl. apply wf_snoc; assumption.
    + rewrite (C2 eq_refl). exact W.
  - exact W.
  - destruct (findOneBy_spec i e db) as [o [_ Ho]].
    destruct o as [row|].
    + destruct Ho as (Hin & Hid & Hdel).
      rewrite (updateStatus_visible i s e db row W Hin Hid Hdel).
      destruct (Task_eq_dec (setStatus s row) row); simpl; [exact W|].
      unfold wf. rewrite ids_update_where; [exact W|exact Hid].
    + rewrite (updateStatus_hidden i s e db Ho). exact W.
  - unfold remove, bind, Repository_softDelete. cbn [affected].
    destruct (List.length (filter (hasId i) db) =? 0); simpl;
      unfold wf; rewrite ids_softDelete; exact W.
Qed.

End KeyInvariant.

(** ** The client view-model *)

Section ClientFacts.
Import JS Http App Spec ClientSpec.

Variable Srv : Type.
Variable fetch : Request -> Srv -> Outcome * Srv.

Lemma setLists_self (v : View) :
  setLists (todoTasks v) (progressTasks v) (doneTasks v) v = v.
Proof. destruct v; reflexivity. Qed.

(** The [forEach] of [fetchTasks] appends to each list the fetched tasks of
    its status, in fetch order, and touches nothing else. *)
Lemma fold_place (tasks : list Task) (v : View) :
  fold_left place tasks v =
  setLists (todoTasks v ++ filter (statusIs "todo") tasks)
           (progressTasks v ++ filter (statusIs "progress") tasks)
           (doneTasks v ++ filter (statusIs "done") tasks) v.
Proof.
  revert v. induction tasks as [|t tasks IH]; intro v; simpl.
  - rewrite !app_nil_r. symmetry. apply setLists_self.
  - rewrite IH. unfold place, statusIs.
    destruct (String.eqb_spec (status t) "todo") as [E|E].
    { rewrite E. simpl. rewrite <- !app_assoc. reflexivity. }
    destruct (String.eqb_spec (status t) "progress") as [E1|E1].
    { rewrite E1. simpl. rewrite <- !app_assoc. reflexivity. }
    destruct (String.eqb_spec (status t) "done") as [E2|E2].
    { simpl. rewrite <- !app_assoc. reflexivity. }
    reflexivity.
Qed.

(** [fetchTasks] when the request is answered with a task list. *)
Lemma fetchTasks_ok (s : System Srv) (response : Response) (srv' : Srv)
      (tasks : list Task) :
  fetch GET_tasks (server s) = (Fulfilled response, srv') ->
  ok response = true ->
  body response = JsonTasks tasks ->
  fetchTasks fetch s =
  {| view := {| todoTasks := filter (statusIs "todo") tasks;
                progressTasks := filter (statusIs "progress") tasks;
                doneTasks := filter (statusIs "done") tasks;
                newTaskTitle := newTaskTitle (view s);
                isLoading := false;
                errorMessage := None |};
     server := srv';
     sent := sent s ++ [GET_tasks] |}.
Proof.
  intros F O B. unfold fetchTasks, call, onView. simpl.
  rewrite F, O, B. simpl. rewrite fold_place.
  unfold setLists, setError, setLoading. simpl.
  destruct (isLoading (view s)) eqn:L; simpl; rewrite ?L; reflexivity.
Qed.

(** Whatever the answer, [fetchTasks] sends [GET /tasks] and nothing else. *)
Lemma fetchTasks_sent (s : System Srv) :
  sent (fetchTasks fetch s) = sent s ++ [GET_tasks].
Proof.
  unfold fetchTasks, call, onView. simpl.
  destruct (fetch GET_tasks (server s)) as [[m|response] srv']; simpl;
    [reflexivity|].
  destruct (ok response); [|reflexivity].
  destruct (body response); reflexivity.
Qed.

End ClientFacts.

(** ** Taking a task off the board *)

Section BoardFacts.
Import JS Http App Spec ClientSpec.

(** What [findIndex] and [splice] do to one list. *)

Lemma findIndex_none (i : string) (l : list Task) :
  findIndex i l = None ->
  filter (fun t => negb (id t =? i)%string) l = l.
Proof.
  induction l as [|t l IH]; simpl; intro H; [reflexivity|].
  destruct (id t =? i)%string; [discriminate|]. simpl.
  destruct (findIndex i l); [discriminate|].
  rewrite IH; reflexivity.
Qed.

Lemma findIndex_none_iff (i : string) (l : list Task) :
  findIndex i l = None <-> forall t, In t l -> id t <> i.
Proof.
  induction l as [|a l IH]; simpl.
  - split; [intros _ t []|reflexivity].
  - destruct (String.eqb_spec (id a) i) as [E|E].
    + split; [discriminate|]. intro H. exfalso.
      exact (H a (or_introl eq_refl) E).
    + destruct (findIndex i l) as [k|].
      * split; [discriminate|]. intro H. exfalso.
        assert (N : forall t, In t l -> id t <> i) by (intros t Ht; apply H; right; exact Ht).
        apply IH in N. discriminate.
      * split; [|reflexivity]. intros _ t [Ht|Ht]; [subst; exact E|].
        apply IH; [reflexivity|exact Ht].
Qed.

Lemma splice1_found (i : string) (l : list Task) (k : nat) :
  findIndex i l = Some k ->
  exists pre t post,
    l = pre ++ t :: post /\ id t = i /\
    (forall x, In x pre -> id x <> i) /\
    splice1 k l = pre ++ post.
Proof.
  revert k. induction l as [|a l IH]; simpl; intros k H; [discriminate|].
  destruct (String.eqb_spec (id a) i) as [E|E].
  - inversion H; subst k. exists [], a, l. simpl.
    repeat split; auto; intros x [].
  - destruct (findIndex i l) as [k'|]; [|discriminate].
    inversion H; subst k.
    destruct (IH k' eq_refl) as (pre & t & post & L & It & P & S).
    exists (a :: pre), t, post. simpl. rewrite S.
    repeat split; auto; [f_equal; exact L|].
    intros x [X|X]; [subst; exact E|auto].
Qed.

(** The loop of [deleteTask]: the first of the three lists that holds the
    id loses its first task of that id. *)
Lemma removeFromLists_spec (i : string) (v : View) :
  removedFromBoard i v (removeFromLists i v).
Proof.
  unfold removedFromBoard, removeFromLists, removedFirst, lacks.
  destruct (findIndex i (todoTasks v)) as [k|] eqn:F1.
  { destruct (splice1_found i _ k F1) as (pre & t & post & L & It & P & Sp).
    simpl. repeat split. left.
    split; [|split; reflexivity].
    exists pre, t, post. auto. }
  pose proof (proj1 (findIndex_none_iff i _) F1) as A1.
  destruct (findIndex i (progressTasks v)) as [k|] eqn:F2.
  { destruct (splice1_found i _ k F2) as (pre & t & post & L & It & P & Sp).
    simpl. repeat split. right. left.
    split; [exact A1|]. split; [reflexivity|]. split; [|reflexivity].
    exists pre, t, post. auto. }
  pose proof (proj1 (findIndex_none_iff i _) F2) as A2.
  destruct (findIndex i (doneTasks v)) as [k|] eqn:F3.
  { destruct (splice1_found i _ k F3) as (pre & t & post & L & It & P & Sp).
    simpl. repeat split. right. right. left.
    split; [exact A1|]. split; [exact A2|].
    split; [reflexivity|]. split; [reflexivity|].
    exists pre, t, post. auto. }
  pose proof (proj1 (findIndex_none_iff i _) F3) as A3.
  repeat split. right. right. right. auto.
Qed.

End BoardFacts.

Section ClientClaims.
Import JS Http App Spec ClientSpec.

Variable Srv : Type.
Variable fetch : Request -> Srv -> Outcome * Srv.

(** C6.  When the request of [fetchTasks] is answered with a task list, the
    three lists are the fetched tasks of status todo, progress and done, in
    fetch order: a fetched task with one of these statuses is in the list of
    its status and in neither of the other two.  The lists are a function of
    the fetched list alone: two runs that fetch the same list end with the
    same lists, whatever the lists held before. *)
Theorem fetchTasks_partitions (s : System Srv) (response : Response)
        (srv' : Srv) (tasks : list Task) :
  fetch GET_tasks (server s) = (Fulfilled response, srv') ->
  ok response = true ->
  body response = JsonTasks tasks ->
  lists (view (fetchTasks fetch s)) = partition tasks /\
  (forall t, In t tasks ->
     (status t = "todo"%string ->
        In t (todoTasks (view (fetchTasks fetch s))) /\
        ~ In t (progressTasks (view (fetchTasks fetch s))) /\
        ~ In t (doneTasks (view (fetchTasks fetch s)))) /\
     (status t = "progress"%string ->
        ~ In t (todoTasks (view (fetchTasks fetch s))) /\
        In t (progressTasks (view (fetchTasks fetch s))) /\
        ~ In t (doneTasks (view (fetchTasks fetch s)))) /\
     (status t = "done"%string ->
        ~ In t (todoTasks (view (fetchTasks fetch s))) /\
        ~ In t (progressTasks (view (fetchTasks fetch s))) /\
        In t (doneTasks (view (fetchTasks fetch s))))) /\
  (forall (s2 : System Srv) (response2 : Response) (srv2 : Srv),
     fetch GET_tasks (server s2) = (Fulfilled response2, srv2) ->
     ok response2 = true ->
     body response2 = JsonTasks tasks ->
     lists (view (fetchTasks fetch s2)) = lists (view (fetchTasks fetch s))).
Proof.
  intros F O B.
  rewrite (fetchTasks_ok Srv fetch s response srv' tasks F O B).
  cbn [view todoTasks progressTasks doneTasks lists].
  split; [reflexivity|]. split.
  - intros t Hin. rewrite !filter_In. unfold statusIs.
    split; [|split]; intro E; rewrite E;
      (split; [|split]);
      try (split; [exact Hin|reflexivity]);
      intros [_ C]; discriminate C.
  - intros s2 response2 srv2 F2 O2 B2.
    rewrite (fetchTasks_ok Srv fetch s2 response2 srv2 tasks F2 O2 B2).
    reflexivity.
Qed.

(** C10.  A fetched task whose status is none of todo, progress and done is
    dropped without a word: after [fetchTasks] it is in none of the three
    lists, and the error message is null. *)
Theorem fetchTasks_drops_unknown_status (s : System Srv)
        (response : Response) (srv' : Srv) (tasks : list Task) (t : Task) :
  fetch GET_tasks (server s) = (Fulfilled response, srv') ->
  ok response = true ->
  body response = JsonTasks tasks ->
  In t tasks ->
  status t <> "todo"%string ->
  status t <> "progress"%string ->
  status t <> "done"%string ->
  ~ In t (todoTasks (view (fetchTasks fetch s))) /\
  ~ In t (progressTasks (view (fetchTasks fetch s))) /\
  ~ In t (doneTasks (view (fetchTasks fetch s))) /\
  errorMessage (view (fetchTasks fetch s)) = None.
Proof.
  intros F O B Hin N1 N2 N3.
  rewrite (fetchTasks_ok Srv fetch s response srv' tasks F O B).
  cbn [view todoTasks progressTasks doneTasks errorMessage].
  rewrite !filter_In. unfold statusIs.
  repeat split; try (intros [_ C]; apply String.eqb_eq in C; contradiction).
Qed.

(** C9.  With a title that is empty or made of white space only, [addTask]
    returns at once: the whole system is as it was; no request was sent, the
    three lists and the server state are unchanged. *)
Theorem addTask_blank_noop (s : System Srv) :
  blank (newTaskTitle (view s)) = true ->
  addTask fetch s = s /\
  sent (addTask fetch s) = sent s /\
  lists (view (addTask fetch s)) = lists (view s) /\
  server (addTask fetch s) = server s.
Proof.
  intro H.
  assert (E : addTask fetch s = s).
  { unfold addTask. rewrite (trim_blank _ H). reflexivity. }
  rewrite E. repeat split.
Qed.

(** C5, amended.  An add the server accepted and every move of a task to
    another column end in [fetchTasks]: the lists are those a refetch of the
    full task set yields, sorted by status.  [deleteTask] never refetches:
    the one request it sends is the delete, and once that is answered ok it
    removes the task from the list that holds it, in place: the first of the
    lists todo, progress, done that holds the id loses its first task of
    that id, and nothing else on the board changes. *)
Theorem mutations_resync (s : System Srv) :
  (forall response srv',
     truthy (trim (newTaskTitle (view s))) = true ->
     fetch (POST_tasks (trim (newTaskTitle (view s)))) (server s) =
       (Fulfilled response, srv') ->
     ok response = true ->
     refetches fetch (addTask fetch) s) /\
  (forall event,
     originalParent event <> targetParent event ->
     refetches fetch (handleTaskMove fetch event) s) /\
  (forall task,
     sent (deleteTask fetch task s) = sent s ++ [DELETE_task (id task)] /\
     (forall response srv',
        fetch (DELETE_task (id task)) (server s) =
          (Fulfilled response, srv') ->
        ok response = true ->
        removedFromBoard (id task) (view s)
                         (view (deleteTask fetch task s)))).
Proof.
  split; [|split].
  - intros response srv' T F O.
    exists {| view := view s; server := srv';
              sent := sent s ++ [POST_tasks (trim (newTaskTitle (view s)))] |}.
    exists (POST_tasks (trim (newTaskTitle (view s)))).
    split; [discriminate|]. split; [simpl; rewrite F; reflexivity|].
    split; [reflexivity|].
    unfold addTask, call. rewrite T, F, O. simpl.
    repeat split.
  - intros event N.
    apply String.eqb_neq in N.
    unfold refetches, handleTaskMove, call. rewrite N.
    destruct (fetch (PATCH_task (targetNode event) (targetParent event))
                    (server s)) as [[m|response] srv'] eqn:F.
    + exists {| view := setError (Some m) (view s); server := srv';
                sent := sent s ++ [PATCH_task (targetNode event)
                                              (targetParent event)] |}.
      exists (PATCH_task (targetNode event) (targetParent event)).
      rewrite F. repeat split. discriminate.
    + destruct (ok response); eexists;
        exists (PATCH_task (targetNode event) (targetParent event));
        rewrite F;
        (split; [discriminate|]);
        (split; [|split; [|repeat split]]); reflexivity.
  - intro task. unfold deleteTask, call.
    destruct (fetch (DELETE_task (id task)) (server s))
      as [[m|response] srv'] eqn:F.
    + split; [reflexivity|]. intros r x X. discriminate X.
    + split.
      * destruct (ok response); reflexivity.
      * intros r x X O. inversion X; subst. rewrite O. simpl.
        apply removeFromLists_spec.
Qed.

End ClientClaims.

(** ** The client in front of the API: concrete runs *)

Section ClientRuns.
Import JS Http App Spec ClientSpec.

Lemma fetchTasks_partitions_witness :
  lists (view (fetchTasks (api Sample.env0) sys0)) =
  partition [TaskController.toJSON Sample.rowA;
             TaskController.toJSON Sample.rowC].
Proof.
  apply (fetchTasks_partitions Orm.Table (api Sample.env0) sys0
           {| code := 200; statusText := "OK";
              body := JsonTasks [TaskController.toJSON Sample.rowA;
                                 TaskController.toJSON Sample.rowC] |}
           Sample.db0
           [TaskController.toJSON Sample.rowA;
            TaskController.toJSON Sample.rowC]);
    reflexivity.
Defined.

Lemma fetchTasks_drops_unknown_status_witness :
  ~ In archived (todoTasks (view (fetchTasks foreign sysForeign))) /\
  ~ In archived (progressTasks (view (fetchTasks foreign sysForeign))) /\
  ~ In archived (doneTasks (view (fetchTasks foreign sysForeign))) /\
  errorMessage (view (fetchTasks foreign sysForeign)) = None.
Proof.
  apply (fetchTasks_drops_unknown_status unit foreign sysForeign
           {| code := 200; statusText := "OK";
              body := JsonTasks [TaskController.toJSON Sample.rowA;
                                 archived;
                                 TaskController.toJSON Sample.rowC] |}
           tt
           [TaskController.toJSON Sample.rowA; archived;
            TaskController.toJSON Sample.rowC]
           archived);
    try reflexivity.
  - simpl. right. left. reflexivity.
  - simpl. discriminate.
  - simpl. discriminate.
  - simpl. discriminate.
Defined.

Lemma addTask_blank_noop_witness :
  blank (newTaskTitle (view sysBlank)) = true /\
  addTask (api Sample.env0) sysBlank = sysBlank /\
  sent (addTask (api Sample.env0) sysBlank) = sent sysBlank /\
  lists (view (addTask (api Sample.env0) sysBlank)) = lists (view sysBlank) /\
  server (addTask (api Sample.env0) sysBlank) = server sysBlank.
Proof.
  split.
  - reflexivity.
  - apply (addTask_blank_noop Orm.Table (api Sample.env0) sysBlank).
    reflexivity.
Defined.

Lemma mutations_resync_witness :
  refetches (api Sample.env0) (addTask (api Sample.env0)) sys0 /\
  refetches (api Sample.env0) (handleTaskMove (api Sample.env0) drag0) sys0 /\
  removedFromBoard Sample.idC (view sys0)
    (view (deleteTask (api Sample.env0) (TaskController.toJSON Sample.rowC)
             sys0)).
Proof.
  split; [|split].
  - eapply (mutations_resync Orm.Table (api Sample.env0) sys0).
    + reflexivity.
    + reflexivity.
    + reflexivity.
  - apply (mutations_resync Orm.Table (api Sample.env0) sys0).
    simpl. discriminate.
  - eapply (mutations_resync Orm.Table (api Sample.env0) sys0).
    + reflexivity.
    + reflexivity.
Defined.

(** C5 as stated fails on delete.  On the sample system [deleteTask] does not
    go through [fetchTasks]: the one request it sends is the delete, and the
    lists it leaves are not those a refetch yields (the progress list still
    shows a task the server no longer lists). *)
Lemma deleteTask_does_not_refetch :
  ~ refetches (api Sample.env0)
      (deleteTask (api Sample.env0) (TaskController.toJSON Sample.rowC)) sys0
  /\
  lists (view (deleteTask (api Sample.env0)
                 (TaskController.toJSON Sample.rowC) sys0)) <>
  lists (view (fetchTasks (api Sample.env0)
                 (deleteTask (api Sample.env0)
                    (TaskController.toJSON Sample.rowC) sys0))).
Proof.
  split.
  - intros [mid [request (_ & _ & _ & _ & _ & Hsent)]].
    rewrite fetchTasks_sent in Hsent.
    change (sent (deleteTask (api Sample.env0)
                    (TaskController.toJSON Sample.rowC) sys0))
      with ([] ++ [DELETE_task Sample.idC]) in Hsent.
    apply app_inj_tail in Hsent. destruct Hsent as [_ C]. discriminate C.
  - vm_compute. intro C. discriminate C.
Qed.

End ClientRuns.

(* ===================================================================== *)
(** * Further properties *)
(* ===================================================================== *)

(** ** The shape of a trimmed string *)

Section TrimShape.
Import JS.

Lemma trimStart_split (s : jsstring) :
  exists p, s = p ++ trimStart s /\ blank p = true.
Proof.
  induction s as [|c r [p [E B]]]; simpl.
  - exists []. split; reflexivity.
  - destruct (isWhiteSpace c) eqn:W.
    + exists (c :: p). simpl. rewrite W, B. split; [f_equal; exact E|reflexivity].
    + exists []. split; reflexivity.
Qed.

Lemma trimStart_head (s : jsstring) (c : char16) (r : jsstring) :
  trimStart s = c :: r -> isWhiteSpace c = false.
Proof.
  induction s as [|a s IH]; simpl; intro H; [discriminate|].
  destruct (isWhiteSpace a) eqn:W; [auto|].
  inversion H; subst. exact W.
Qed.

Lemma trimStart_id (s : jsstring) :
  (forall c r, s = c :: r -> isWhiteSpace c = false) -> trimStart s = s.
Proof.
  destruct s as [|a s]; simpl; intro H; [reflexivity|].
  rewrite (H a s eq_refl). reflexivity.
Qed.

Lemma trimStart_nil (s : jsstring) : trimStart s = [] -> blank s = true.
Proof.
  induction s as [|a s IH]; simpl; intro H; [reflexivity|].
  destruct (isWhiteSpace a); [auto|discriminate].
Qed.

Lemma blank_app (a b : jsstring) : blank (a ++ b) = blank a && blank b.
Proof. apply forallb_app. Qed.

Lemma blank_rev (s : jsstring) : blank (rev s) = blank s.
Proof.
  induction s as [|a s IH]; simpl; [reflexivity|].
  rewrite blank_app, IH. simpl. rewrite andb_true_r. apply andb_comm.
Qed.

Lemma rev_nil (s : jsstring) : rev s = [] -> s = [].
Proof.
  intro H. rewrite <- (rev_involutive s), H. reflexivity.
Qed.

(** Trimming leaves nothing exactly when the string is blank. *)
Lemma trim_nil_iff (s : jsstring) : trim s = [] <-> blank s = true.
Proof.
  split; [|apply trim_blank].
  unfold trim, trimEnd. intro H.
  apply rev_nil in H. apply trimStart_nil in H. rewrite blank_rev in H.
  destruct (trimStart_split s) as [p [E B]].
  rewrite E, blank_app, B, H. reflexivity.
Qed.

(** A trimmed string does not begin with white space. *)
Lemma trim_head (s : jsstring) (c : char16) (r : jsstring) :
  trim s = c :: r -> isWhiteSpace c = false.
Proof.
  unfold trim, trimEnd. intro H.
  destruct (trimStart_split (rev (trimStart s))) as [p [E _]].
  assert (U : trimStart (rev (trimStart s)) = rev r ++ [c]).
  { rewrite <- (rev_involutive (trimStart (rev (trimStart s)))), H.
    reflexivity. }
  rewrite U in E.
  assert (T : trimStart s = c :: r ++ rev p).
  { rewrite <- (rev_involutive (trimStart s)), E.
    rewrite !rev_app_distr. simpl. rewrite rev_involutive. reflexivity. }
  exact (trimStart_head s c _ T).
Qed.

(** Nor does it end with white space. *)
Lemma trim_last (s : jsstring) (r : jsstring) (c : char16) :
  trim s = r ++ [c] -> isWhiteSpace c = false.
Proof.
  unfold trim, trimEnd. intro H.
  assert (U : trimStart (rev (trimStart s)) = c :: rev r).
  { rewrite <- (rev_involutive (trimStart (rev (trimStart s)))), H.
    rewrite rev_app_distr. reflexivity. }
  exact (trimStart_head _ c _ U).
Qed.

(** Trimming a trimmed string changes nothing. *)
Lemma trim_idem (s : jsstring) : trim (trim s) = trim s.
Proof.
  assert (A : trimStart (trim s) = trim s).
  { apply trimStart_id. intros c r E. exact (trim_head s c r E). }
  unfold trim at 1. rewrite A. unfold trimEnd.
  assert (B : trimStart (rev (trim s)) = rev (trim s)).
  { apply trimStart_id. intros c r E.
    apply (trim_last s (rev r) c).
    rewrite <- (rev_involutive (trim s)), E. reflexivity. }
  rewrite B. apply rev_involutive.
Qed.

End TrimShape.

(** ** More on the create-task schema *)

Section SchemaMore.
Import JS Zod Dto.

(** X1.  The schema refuses exactly the empty string and the strings of more
    than 255 code units, counted before trimming; whatever it accepts it
    stores trimmed. *)
Theorem CreateTaskSchema_refusal (input : jsstring) :
  (CreateTaskSchema input = None <->
   List.length input = 0 \/ 255 < List.length input) /\
  (CreateTaskSchema input = Some {| title := trim input |} <->
   1 <= List.length input <= 255).
Proof.
  split.
  - split.
    + intro H.
      destruct (Nat.eq_dec (List.length input) 0) as [Z|Z]; [left; exact Z|].
      destruct (Nat.lt_ge_cases 255 (List.length input)) as [L|L];
        [right; exact L|].
      exfalso.
      assert (S : CreateTaskSchema input = Some {| title := trim input |}).
      { apply CreateTaskSchema_spec. simpl. split; [lia|reflexivity]. }
      congruence.
    + intro H.
      destruct (CreateTaskSchema input) as [dto|] eqn:E; [|reflexivity].
      apply CreateTaskSchema_spec in E. lia.
  - split.
    + intro H. apply CreateTaskSchema_spec in H. tauto.
    + intro H. apply CreateTaskSchema_spec. simpl. split; [exact H|reflexivity].
Qed.

(** X2.  A title the schema accepted has at most 255 code units, carries no
    white space at either end, and is empty exactly when the input was
    blank. *)
Theorem CreateTaskSchema_accepted_title (input : jsstring)
        (dto : CreateTaskDto) :
  CreateTaskSchema input = Some dto ->
  List.length (title dto) <= 255 /\
  (forall c r, title dto = c :: r -> isWhiteSpace c = false) /\
  (forall r c, title dto = r ++ [c] -> isWhiteSpace c = false) /\
  (title dto = [] <-> blank input = true).
Proof.
  intro H. apply CreateTaskSchema_spec in H. destruct H as [L T].
  rewrite T. split; [|split; [|split]].
  - pose proof (trim_length input). lia.
  - intros c r E. exact (trim_head input c r E).
  - intros r c E. exact (trim_last input r c E).
  - apply trim_nil_iff.
Qed.

Lemma CreateTaskSchema_accepted_title_witness :
  List.length (str "buy milk") <= 255 /\
  (forall c r, str "buy milk" = c :: r -> isWhiteSpace c = false) /\
  (forall r c, str "buy milk" = r ++ [c] -> isWhiteSpace c = false) /\
  (str "buy milk" = [] <-> blank (str " buy milk ") = true).
Proof.
  apply (CreateTaskSchema_accepted_title (str " buy milk ")
           {| title := str "buy milk" |}).
  reflexivity.
Defined.

(** X3.  The schema is idempotent on what it stores: a non-empty title it
    accepted is accepted again, unchanged. *)
Theorem CreateTaskSchema_idempotent (input : jsstring) (dto : CreateTaskDto) :
  CreateTaskSchema input = Some dto ->
  title dto <> [] ->
  CreateTaskSchema (title dto) = Some dto.
Proof.
  intros H N. apply CreateTaskSchema_spec in H. destruct H as [L T].
  apply CreateTaskSchema_spec. split.
  - pose proof (trim_length input) as B. rewrite <- T in B.
    destruct (title dto); [contradiction|simpl in *; lia].
  - rewrite T. symmetry. apply trim_idem.
Qed.

Lemma CreateTaskSchema_idempotent_witness :
  CreateTaskSchema (str "buy milk") = Some {| title := str "buy milk" |}.
Proof.
  apply (CreateTaskSchema_idempotent (str " buy milk ")
           {| title := str "buy milk" |}).
  - reflexivity.
  - simpl. discriminate.
Defined.

End SchemaMore.

(** ** How the operations of the service compose *)

Section ServiceComposition.
Import JS Orm TaskService Spec History.

Lemma filter_all (f : Task -> bool) (l : list Task) :
  (forall r, In r l -> f r = true) -> filter f l = l.
Proof.
  induction l as [|a l IH]; simpl; intro H; [reflexivity|].
  rewrite (H a) by (left; reflexivity).
  f_equal. apply IH. intros r Hr. apply H. right. exact Hr.
Qed.

Lemma remove_table (i : string) (e : Env) (db : Table) :
  snd (remove i e db) =
  map (fun r => if hasId i r then markDeleted (now e) r else r) db.
Proof.
  unfold remove, bind, Repository_softDelete. cbn [affected].
  destruct (List.length (filter (hasId i) db) =? 0); reflexivity.
Qed.

Lemma visible_after_mark (i : string) (t : Z) (db : Table) :
  visible (map (fun r => if hasId i r then markDeleted t r else r) db) =
  filter (fun r => negb (hasId i r)) (visible db).
Proof.
  unfold visible. induction db as [|a db IH]; simpl; [reflexivity|].
  destruct (hasId i a) eqn:H.
  - simpl. destruct (notDeleted a); simpl; rewrite ?H; simpl; exact IH.
  - destruct (notDeleted a); simpl; rewrite ?H; simpl; rewrite IH;
      reflexivity.
Qed.

(** X4.  For a uuid spelled as the store spells it, [findOne] returns a
    stored row that carries the id and is not marked deleted, or raises
    not-found with the message naming the id, and that exactly when every
    row that carries the uuid is marked deleted (none at all included);
    either way the table is left as it was. *)
Theorem findOne_spec (i : string) (e : Env) (db : Table) :
  TaskController.isUUID i = true ->
  spelledAsStored i db ->
  (exists task,
     findOne i e db = (Ok task, db) /\
     In task db /\ id task = i /\ deletedAt task = None) \/
  (findOne i e db = (Err (NotFoundException (notFoundMessage i)), db) /\
   forall r, In r db -> canon (id r) = canon i -> deletedAt r <> None).
Proof.
  intros _ Sp. unfold findOne, bind.
  destruct (findOneBy_spec i e db) as [o [F Ho]]. rewrite F.
  destruct o as [t|].
  - left. exists t. split; [reflexivity|exact Ho].
  - right. split; [reflexivity|].
    intros r Hr C. exact (Ho r Hr (Sp r Hr C)).
Qed.

Lemma sample_spelled : spelledAsStored Sample.idA Sample.db0.
Proof.
  intros r H C. simpl in H.
  destruct H as [H|[H|[H|H]]]; try contradiction; subst r;
    try reflexivity; vm_compute in C; discriminate C.
Defined.

Lemma findOne_spec_witness :
  (exists task,
     findOne Sample.idA Sample.env0 Sample.db0 = (Ok task, Sample.db0) /\
     In task Sample.db0 /\ id task = Sample.idA /\ deletedAt task = None) \/
  (findOne Sample.idA Sample.env0 Sample.db0 =
     (Err (NotFoundException (notFoundMessage Sample.idA)), Sample.db0) /\
   forall r, In r Sample.db0 -> canon (id r) = canon Sample.idA ->
             deletedAt r <> None).
Proof.
  apply (findOne_spec Sample.idA Sample.env0 Sample.db0).
  - reflexivity.
  - exact sample_spelled.
Defined.

(** X5.  For a uuid spelled as the store spells it: after [remove], whether
    it succeeded or raised, the list operation returns what it returned
    before without the tasks of that id, and none of the listed tasks
    carries the uuid. *)
Theorem remove_then_findAll (i : string) (e e' : Env) (db : Table) :
  TaskController.isUUID i = true ->
  spelledAsStored i db ->
  exists before,
    fst (findAll e' db) = Ok before /\
    fst (findAll e' (snd (remove i e db))) =
      Ok (filter (fun r => negb (id r =? i)%string) before) /\
    (forall t, In t (filter (fun r => negb (id r =? i)%string) before) ->
               canon (id t) <> canon i).
Proof.
  intros _ Sp. exists (visible db). split; [reflexivity|].
  rewrite remove_table. unfold findAll, Repository_find. simpl.
  fold (visible (map (fun r => if hasId i r then markDeleted (now e) r else r)
                     db)).
  rewrite visible_after_mark. split; [reflexivity|].
  intros t H C. apply filter_In in H. destruct H as [Hv H].
  apply negb_true_iff in H. apply String.eqb_neq in H. apply H.
  apply (Sp t); [|exact C].
  unfold visible in Hv. apply filter_In in Hv. tauto.
Qed.

Lemma remove_then_findAll_witness :
  exists before,
    fst (findAll Sample.env0 Sample.db0) = Ok before /\
    fst (findAll Sample.env0
           (snd (remove Sample.idA Sample.env0 Sample.db0))) =
      Ok (filter (fun r => negb (id r =? Sample.idA)%string) before) /\
    (forall t, In t (filter (fun r => negb (id r =? Sample.idA)%string)
                            before) ->
               canon (id t) <> canon Sample.idA).
Proof.
  apply (remove_then_findAll Sample.idA Sample.env0 Sample.env0 Sample.db0).
  - reflexivity.
  - exact sample_spelled.
Defined.

(** X6.  Once [remove] has run on a key, [updateStatus] on that key raises
    not-found and writes nothing. *)
Theorem remove_then_updateStatus (i : string) (s : TaskStatus)
        (e e' : Env) (db : Table) :
  updateStatus i s e' (snd (remove i e db)) =
  (Err (NotFoundException (notFoundMessage i)), snd (remove i e db)).
Proof.
  apply updateStatus_hidden. rewrite remove_table.
  intros r Hr Hid. apply in_map_iff in Hr. destruct Hr as [x [E _]].
  destruct (hasId i x) eqn:H; subst r.
  - simpl. discriminate.
  - apply hasId_false in H. contradiction.
Qed.

(** X7.  When [create] has succeeded under a fresh key, removing the task
    it returned succeeds and gives the list operation back what it returned
    before the two calls; the row itself stays in the table, marked
    deleted. *)
Theorem create_then_remove (dto : Dto.CreateTaskDto) (e e2 e3 : Env)
        (db db1 : Table) (task : Task) :
  ~ stored (uuid e) db ->
  create dto e db = (Ok task, db1) ->
  fst (remove (id task) e2 db1) = Ok tt /\
  fst (findAll e3 (snd (remove (id task) e2 db1))) = fst (findAll e3 db) /\
  List.length (snd (remove (id task) e2 db1)) = S (List.length db).
Proof.
  intros N C.
  destruct (create_cases dto e db) as [C1 C2].
  destruct (storable (Dto.title dto));
    [|rewrite (C2 eq_refl) in C; discriminate C].
  rewrite (C1 eq_refl) in C. injection C as E1 E2. subst task db1.
  cbn [id]. split; [|split].
  - rewrite remove_stored; [reflexivity|].
    unfold stored. rewrite map_app. apply in_or_app. right. simpl. auto.
  - rewrite remove_table. unfold findAll, Repository_find. simpl.
    fold (visible db).
    match goal with |- Ok (filter notDeleted ?l) = _ =>
      change (filter notDeleted l) with (visible l) end.
    rewrite visible_after_mark. unfold visible at 1.
    rewrite !filter_app. simpl.
    replace (hasId (uuid e) _) with true
      by (symmetry; apply hasId_true; reflexivity).
    simpl. rewrite app_nil_r. f_equal.
    apply filter_all. intros r Hr. apply negb_true_iff.
    apply (absent_hasId (uuid e) db N).
    unfold visible in Hr. apply filter_In in Hr. tauto.
  - rewrite remove_table, length_map, length_app. simpl. lia.
Qed.

Lemma create_then_remove_witness :
  exists task db1,
    create {| Dto.title := str "buy milk" |} Sample.env0 Sample.db0 =
      (Ok task, db1) /\
    fst (remove (id task) Sample.env0 db1) = Ok tt /\
    fst (findAll Sample.env0 (snd (remove (id task) Sample.env0 db1))) =
      fst (findAll Sample.env0 Sample.db0) /\
    List.length (snd (remove (id task) Sample.env0 db1)) = 4.
Proof.
  eexists. eexists. split; [reflexivity|].
  apply (create_then_remove {| Dto.title := str "buy milk" |}
           Sample.env0 Sample.env0 Sample.env0 Sample.db0).
  - unfold stored. simpl. intuition discriminate.
  - reflexivity.
Defined.

End ServiceComposition.

Section StatusComposition.
Import JS Orm TaskService Spec History.

Lemma visible_after_update (i : string) (row new : Task) (db : Table) :
  (forall r, In r db -> hasId i r = true -> r = row) ->
  notDeleted row = true -> notDeleted new = true ->
  visible (update_where_id i new db) =
  map (fun r => if hasId i r then new else r) (visible db).
Proof.
  intros U Vr Vn. unfold visible, update_where_id.
  induction db as [|a db IH]; simpl; [reflexivity|].
  assert (IH' : filter notDeleted (map (fun r => if hasId i r then new else r) db)
                = map (fun r => if hasId i r then new else r)
                      (filter notDeleted db)).
  { apply IH. intros r Hr. apply U. right. exact Hr. }
  destruct (hasId i a) eqn:H.
  - rewrite (U a (or_introl eq_refl) H), Vr, Vn. simpl.
    rewrite (U a (or_introl eq_refl) H) in H. rewrite H, IH'. reflexivity.
  - destruct (notDeleted a); simpl; rewrite ?H, IH'; reflexivity.
Qed.

Lemma map_where_same (i : string) (row : Task) (l : list Task) :
  (forall r, In r l -> hasId i r = true -> r = row) ->
  map (fun r => if hasId i r then row else r) l = l.
Proof.
  induction l as [|a l IH]; simpl; intro U; [reflexivity|].
  rewrite IH by (intros r Hr; apply U; right; exact Hr).
  destruct (hasId i a) eqn:H; [|reflexivity].
  rewrite (U a (or_introl eq_refl) H). reflexivity.
Qed.

(** The table after [updateStatus], row by row as the model keeps it. *)
Lemma updateStatus_listing (i : string) (s : TaskStatus)
        (e e' : Env) (db : Table) (row : Task) :
  wf db -> In row db -> id row = i -> deletedAt row = None ->
  exists task,
    fst (updateStatus i s e db) = Ok task /\
    status task = s /\ id task = i /\ title task = title row /\
    fst (findAll e' (snd (updateStatus i s e db))) =
      Ok (map (fun r => if hasId i r then task else r) (visible db)) /\
    map id (visible (snd (updateStatus i s e db))) = map id (visible db).
Proof.
  intros W Hin Hid Hdel.
  assert (U : forall r, In r db -> hasId i r = true -> r = row).
  { intros r Hr H. apply hasId_true in H.
    apply (wf_unique db r row W Hr Hin). congruence. }
  assert (Uv : forall r, In r (visible db) -> hasId i r = true -> r = row).
  { intros r Hr. apply U. unfold visible in Hr. apply filter_In in Hr. tauto. }
  assert (Vr : notDeleted row = true) by (unfold notDeleted; rewrite Hdel; reflexivity).
  rewrite (updateStatus_visible i s e db row W Hin Hid Hdel).
  destruct (Task_eq_dec (setStatus s row) row) as [E|E]; simpl.
  - exists (setStatus s row).
    split; [reflexivity|]. split; [reflexivity|].
    split; [exact Hid|]. split; [reflexivity|].
    rewrite E. fold (visible db).
    rewrite (map_where_same i row (visible db) Uv). split; reflexivity.
  - exists (touch (now e) (setStatus s row)).
    split; [reflexivity|]. split; [reflexivity|].
    split; [exact Hid|]. split; [reflexivity|].
    fold (visible (update_where_id i (touch (now e) (setStatus s row)) db)).
    rewrite (visible_after_update i row _ db U Vr)
      by (unfold notDeleted; simpl; rewrite Hdel; reflexivity).
    split; [reflexivity|].
    rewrite map_map. apply map_ext_in. intros r Hr.
    destruct (hasId i r) eqn:H; [|reflexivity].
    rewrite (Uv r Hr H). simpl. reflexivity.
Qed.

(** X8.  For a visible task, [updateStatus] returns the task with the
    requested status, its key, title and creation date as before, and what
    the list operation returns afterwards is what it returned before with
    that one task replaced by the returned one: as many tasks, the returned
    task among them, and every other task exactly when it was listed
    before. *)
Theorem updateStatus_then_findAll (i : string) (s : TaskStatus)
        (e e' : Env) (db : Table) (row : Task) :
  wf db -> In row db -> id row = i -> deletedAt row = None ->
  exists task before after,
    fst (updateStatus i s e db) = Ok task /\
    status task = s /\ id task = i /\ title task = title row /\
    fst (findAll e' db) = Ok before /\
    fst (findAll e' (snd (updateStatus i s e db))) = Ok after /\
    List.length after = List.length before /\
    (forall t, In t after <-> t = task \/ (In t before /\ id t <> i)).
Proof.
  intros W Hin Hid Hdel.
  destruct (updateStatus_listing i s e e' db row W Hin Hid Hdel)
    as (task & R & St & It & Tt & L & _).
  exists task, (visible db),
    (map (fun r => if hasId i r then task else r) (visible db)).
  split; [exact R|]. split; [exact St|]. split; [exact It|].
  split; [exact Tt|]. split; [reflexivity|]. split; [exact L|].
  split; [apply length_map|].
  assert (V : In row (visible db)).
  { unfold visible. apply filter_In. split; [exact Hin|].
    unfold notDeleted. rewrite Hdel. reflexivity. }
  intro t. rewrite in_map_iff. split.
  - intros [r [E Hr]]. destruct (hasId i r) eqn:H.
    + left. symmetry. exact E.
    + right. subst t. split; [exact Hr|]. apply hasId_false. exact H.
  - intros [E|[Ht N]].
    + exists row. split; [|exact V].
      replace (hasId i row) with true; [symmetry; exact E|].
      symmetry. apply hasId_true. exact Hid.
    + exists t. split; [|exact Ht].
      replace (hasId i t) with false; [reflexivity|].
      symmetry. apply hasId_false. exact N.
Qed.

Lemma updateStatus_then_findAll_witness :
  exists task before after,
    fst (updateStatus Sample.idA DONE Sample.env0 Sample.db0) = Ok task /\
    status task = DONE /\ id task = Sample.idA /\
    title task = title Sample.rowA /\
    fst (findAll Sample.env0 Sample.db0) = Ok before /\
    fst (findAll Sample.env0
           (snd (updateStatus Sample.idA DONE Sample.env0 Sample.db0))) =
      Ok after /\
    List.length after = List.length before /\
    (forall t, In t after <->
               t = task \/ (In t before /\ id t <> Sample.idA)).
Proof.
  apply (updateStatus_then_findAll Sample.idA DONE Sample.env0 Sample.env0
           Sample.db0 Sample.rowA).
  - exact sample_wf.
  - simpl. left. reflexivity.
  - reflexivity.
  - reflexivity.
Defined.

(** X9.  Asking for the status a visible task has just been given writes
    nothing: the second [updateStatus] returns the stored row and leaves
    the table, update date included, as the first call left it. *)
Theorem updateStatus_twice (i : string) (s : TaskStatus) (e e' : Env)
        (db : Table) (row : Task) :
  wf db -> In row db -> id row = i -> deletedAt row = None ->
  exists task,
    fst (updateStatus i s e db) = Ok task /\
    updateStatus i s e' (snd (updateStatus i s e db)) =
      (Ok task, snd (updateStatus i s e db)).
Proof.
  intros W Hin Hid Hdel.
  rewrite (updateStatus_visible i s e db row W Hin Hid Hdel).
  destruct (Task_eq_dec (setStatus s row) row) as [E|E]; simpl.
  - exists (setStatus s row). split; [reflexivity|].
    rewrite (updateStatus_visible i s e' db row W Hin Hid Hdel).
    destruct (Task_eq_dec (setStatus s row) row); [reflexivity|contradiction].
  - set (new := touch (now e) (setStatus s row)).
    exists new. split; [reflexivity|].
    assert (W' : wf (update_where_id i new db)).
    { unfold wf. rewrite ids_update_where; [exact W|exact Hid]. }
    assert (Hin' : In new (update_where_id i new db)).
    { unfold update_where_id. apply in_map_iff. exists row.
      split; [|exact Hin].
      replace (hasId i row) with true; [reflexivity|].
      symmetry. apply hasId_true. exact Hid. }
    rewrite (updateStatus_visible i s e' _ new W' Hin' Hid Hdel).
    change (setStatus s new) with new.
    destruct (Task_eq_dec new new); [reflexivity|contradiction].
Qed.

Lemma updateStatus_twice_witness :
  exists task,
    fst (updateStatus Sample.idA DONE Sample.env0 Sample.db0) = Ok task /\
    updateStatus Sample.idA DONE {| now := 3000; uuid := Sample.idD |}
      (snd (updateStatus Sample.idA DONE Sample.env0 Sample.db0)) =
      (Ok task, snd (updateStatus Sample.idA DONE Sample.env0 Sample.db0)).
Proof.
  apply (updateStatus_twice Sample.idA DONE Sample.env0
           {| now := 3000; uuid := Sample.idD |} Sample.db0 Sample.rowA).
  - exact sample_wf.
  - simpl. left. reflexivity.
  - reflexivity.
  - reflexivity.
Defined.

End StatusComposition.

(** ** What holds along every run of the service *)

Section Runs.
Import JS Orm TaskService Spec History.

Lemma keeps_refl (r : Task) : keeps r r.
Proof. unfold keeps. tauto. Qed.

Lemma keeps_trans (a b c : Task) : keeps a b -> keeps b c -> keeps a c.
Proof.
  unfold keeps. intros (I1 & T1 & C1 & D1) (I2 & T2 & C2 & D2).
  repeat split; try congruence. auto.
Qed.

Lemma Forall2_keeps_refl (db : Table) : Forall2 keeps db db.
Proof.
  induction db as [|r db IH]; constructor; [apply keeps_refl|exact IH].
Qed.

Lemma Forall2_keeps_trans (a b c : Table) :
  Forall2 keeps a b -> Forall2 keeps b c -> Forall2 keeps a c.
Proof.
  intro H. revert c. induction H as [|x y a b K _ IH]; intros c H2.
  - inversion H2. constructor.
  - inversion H2 as [|y' z b' c' K2 H3]; subst.
    constructor; [exact (keeps_trans x y z K K2)|apply IH; exact H3].
Qed.

(** One operation: the rows that were stored are still there, in place,
    with what they keep; new rows come after them. *)
Lemma exec_keeps (op : Op) (e : Env) (db : Table) :
  wf db ->
  exists kept extra,
    exec op e db = kept ++ extra /\ Forall2 keeps db kept.
Proof.
  intro W. destruct op as [dto| |i s|i]; unfold exec.
  - destruct (create_cases dto e db) as [C1 C2].
    destruct (storable (Dto.title dto)).
    + rewrite (C1 eq_refl). simpl.
      exists db. eexists. split; [reflexivity|apply Forall2_keeps_refl].
    + rewrite (C2 eq_refl). simpl. exists db, []. rewrite app_nil_r.
      split; [reflexivity|apply Forall2_keeps_refl].
  - exists db, []. rewrite app_nil_r.
    split; [reflexivity|apply Forall2_keeps_refl].
  - destruct (findOneBy_spec i e db) as [o [_ Ho]].
    destruct o as [row|].
    + destruct Ho as (Hin & Hid & Hdel).
      rewrite (updateStatus_visible i s e db row W Hin Hid Hdel).
      destruct (Task_eq_dec (setStatus s row) row); simpl.
      * exists db, []. rewrite app_nil_r.
        split; [reflexivity|apply Forall2_keeps_refl].
      * eexists. exists []. rewrite app_nil_r. split; [reflexivity|].
        unfold update_where_id. apply Forall2_map_self. intros r Hr.
        destruct (hasId i r) eqn:H; [|apply keeps_refl].
        apply hasId_true in H.
        assert (r = row)
          by (apply (wf_unique db r row W Hr Hin); congruence).
        subst r. unfold keeps. simpl. tauto.
    + rewrite (updateStatus_hidden i s e db Ho). simpl.
      exists db, []. rewrite app_nil_r.
      split; [reflexivity|apply Forall2_keeps_refl].
  - rewrite remove_table. eexists. exists []. rewrite app_nil_r.
    split; [reflexivity|].
    apply Forall2_map_self. intros r _.
    destruct (hasId i r); [|apply keeps_refl].
    unfold keeps. simpl. repeat split. intros _. discriminate.
Qed.

Lemma exec_wf_fresh (op : Op) (e : Env) (db : Table) :
  wf db -> freshFor op e db -> wf (exec op e db).
Proof.
  intros W F. destruct op as [dto| |i s|i].
  - apply exec_wf; assumption.
  - exact W.
  - unfold exec.
    destruct (findOneBy_spec i e db) as [o [_ Ho]].
    destruct o as [row|].
    + destruct Ho as (Hin & Hid & Hdel).
      rewrite (updateStatus_visible i s e db row W Hin Hid Hdel).
      destruct (Task_eq_dec (setStatus s row) row); simpl; [exact W|].
      unfold wf. rewrite ids_update_where; [exact W|exact Hid].
    + rewrite (updateStatus_hidden i s e db Ho). exact W.
  - unfold exec. rewrite remove_table. unfold wf.
    rewrite ids_softDelete. exact W.
Qed.

Lemma run_invariant (ops : list (Op * Env)) (db : Table) :
  wf db -> freshRun ops db ->
  wf (run ops db) /\
  exists kept extra, run ops db = kept ++ extra /\ Forall2 keeps db kept.
Proof.
  revert db. induction ops as [|[op e] ops IH]; intros db W F; simpl.
  - split; [exact W|]. exists db, []. rewrite app_nil_r.
    split; [reflexivity|apply Forall2_keeps_refl].
  - simpl in F. destruct F as [F1 F2].
    pose proof (exec_wf_fresh op e db W F1) as W1.
    destruct (IH (exec op e db) W1 F2) as [W2 (kept2 & extra2 & E2 & K2)].
    split; [exact W2|].
    destruct (exec_keeps op e db W) as (kept1 & extra1 & E1 & K1).
    rewrite E1 in K2. apply Forall2_app_inv_l in K2.
    destruct K2 as (c1 & c2 & K3 & _ & E3).
    exists c1, (c2 ++ extra2). split.
    + rewrite E2, E3, app_assoc. reflexivity.
    + exact (Forall2_keeps_trans db kept1 c1 K1 K3).
Qed.

(** X10.  Along any sequence of operations whose creates get fresh keys, no
    two rows ever share a key. *)
Theorem run_wf (ops : list (Op * Env)) (db : Table) :
  wf db -> freshRun ops db -> wf (run ops db).
Proof.
  intros W F. apply (run_invariant ops db W F).
Qed.

(** X11.  Along any such sequence the rows that were stored stay where they
    are, new rows coming after them; each keeps its key, its title and its
    creation date, and a row marked deleted stays marked: no operation
    renames a task or brings a deleted one back. *)
Theorem run_keeps (ops : list (Op * Env)) (db : Table) :
  wf db -> freshRun ops db ->
  exists kept extra,
    run ops db = kept ++ extra /\ Forall2 keeps db kept.
Proof.
  intros W F. apply (run_invariant ops db W F).
Qed.

Lemma run0_fresh : freshRun run0 Sample.db0.
Proof.
  simpl. unfold stored. simpl. intuition discriminate.
Defined.

Lemma run_wf_witness : wf (run run0 Sample.db0).
Proof.
  apply (run_wf run0 Sample.db0); [exact sample_wf|exact run0_fresh].
Defined.

Lemma run_keeps_witness :
  exists kept extra,
    run run0 Sample.db0 = kept ++ extra /\ Forall2 keeps Sample.db0 kept.
Proof.
  apply (run_keeps run0 Sample.db0); [exact sample_wf|exact run0_fresh].
Defined.

End Runs.

(** ** The routes of the controller *)

Section Routes.
Import JS Http Orm TaskService Spec History TaskController.

Lemma UpdateTaskSchema_statusValue (st : TaskStatus) :
  UpdateTaskSchema (statusValue st) = Some st.
Proof. destruct st; reflexivity. Qed.

(** X13.  [DELETE /tasks/:id]: a parameter that is not a uuid is answered
    400 with the message of the pipe, and a uuid that no stored row carries,
    however spelled, 404 with the not-found message, the table untouched in
    both cases; the key of a stored row is answered 204 with no body, the
    table keeps its length, and the list operation returns what it returned
    before without the tasks of that key. *)
Theorem handle_DELETE (i : string) (e : Env) (db : Table) :
  (isUUID i = false ->
     handle (DELETE_task i) e db =
       ({| code := 400; statusText := "Bad Request";
           body := JsonError (Some (MsgString
                     "Validation failed (uuid is expected)")) |},
        db)) /\
  (isUUID i = true -> absentByValue i db ->
     handle (DELETE_task i) e db =
       ({| code := 404; statusText := "Not Found";
           body := JsonError (Some (MsgString (notFoundMessage i))) |},
        db)) /\
  (isUUID i = true -> stored i db ->
     exists db' before,
       handle (DELETE_task i) e db =
         ({| code := 204; statusText := "No Content"; body := NoContent |},
          db') /\
       List.length db' = List.length db /\
       (forall e', fst (findAll e' db) = Ok before /\
                   fst (findAll e' db') =
                     Ok (filter (fun r => negb (id r =? i)%string) before))).
Proof.
  split; [|split].
  - intro U. simpl. rewrite U. reflexivity.
  - intros U A. simpl.
    rewrite U, (remove_absent i e db (absentByValue_not_stored i db A)).
    reflexivity.
  - intros U H. simpl. rewrite U, (remove_stored i e db H). simpl.
    eexists. exists (visible db). split; [reflexivity|].
    split; [apply length_map|].
    intro e'. split; [reflexivity|].
    unfold findAll, Repository_find. simpl.
    fold (visible (map (fun r => if hasId i r then markDeleted (now e) r
                                 else r) db)).
    rewrite visible_after_mark. reflexivity.
Qed.

Lemma handle_DELETE_witness :
  handle (DELETE_task "undefined") Sample.env0 Sample.db0 =
    ({| code := 400; statusText := "Bad Request";
        body := JsonError (Some (MsgString
                  "Validation failed (uuid is expected)")) |},
     Sample.db0) /\
  handle (DELETE_task Sample.idD) Sample.env0 Sample.db0 =
    ({| code := 404; statusText := "Not Found";
        body := JsonError (Some (MsgString (notFoundMessage Sample.idD))) |},
     Sample.db0) /\
  exists db' before,
    handle (DELETE_task Sample.idA) Sample.env0 Sample.db0 =
      ({| code := 204; statusText := "No Content"; body := NoContent |},
       db') /\
    List.length db' = 3 /\
    (forall e', fst (findAll e' Sample.db0) = Ok before /\
                fst (findAll e' db') =
                  Ok (filter (fun r => negb (id r =? Sample.idA)%string)
                             before)).
Proof.
  split; [|split].
  - apply (handle_DELETE "undefined" Sample.env0 Sample.db0). reflexivity.
  - apply (handle_DELETE Sample.idD Sample.env0 Sample.db0).
    + reflexivity.
    + exact sample_absent.
  - apply (handle_DELETE Sample.idA Sample.env0 Sample.db0).
    + reflexivity.
    + unfold stored. simpl. left. reflexivity.
Defined.

(** X14.  [PATCH /tasks/:id] with one of the three status values: a
    parameter that is not a uuid is answered 400 with the message of the
    pipe; a uuid that no visible row carries, however spelled (not stored,
    or marked deleted), is answered 404 and nothing is written; the key of a
    visible row is answered 200 with the JSON of the task, which carries the
    requested status, and the table keeps its length. *)
Theorem handle_PATCH (i : string) (st : TaskStatus) (e : Env) (db : Table) :
  (isUUID i = false ->
     handle (PATCH_task i (statusValue st)) e db =
       ({| code := 400; statusText := "Bad Request";
           body := JsonError (Some (MsgString
                     "Validation failed (uuid is expected)")) |},
        db)) /\
  (isUUID i = true ->
     (forall r, In r db -> canon (id r) = canon i -> deletedAt r <> None) ->
     handle (PATCH_task i (statusValue st)) e db =
       ({| code := 404; statusText := "Not Found";
           body := JsonError (Some (MsgString (notFoundMessage i))) |},
        db)) /\
  (isUUID i = true -> wf db ->
     forall row, In row db -> id row = i -> deletedAt row = None ->
     exists db',
       handle (PATCH_task i (statusValue st)) e db =
         ({| code := 200; statusText := "OK";
             body := JsonTask {| Http.id := i; Http.title := title row;
                                 Http.status := statusValue st |} |},
          db') /\
       List.length db' = List.length db).
Proof.
  pose proof UpdateTaskSchema_statusValue as R.
  split; [|split].
  - intro U. simpl. rewrite U. reflexivity.
  - intros U N. simpl. rewrite U. unfold updateTaskBody. rewrite (R st).
    rewrite (updateStatus_hidden i st e db); [reflexivity|].
    intros r Hr E. apply (N r Hr). rewrite E. reflexivity.
  - intros U W row Hin Hid Hdel. simpl. rewrite U.
    unfold updateTaskBody. rewrite (R st).
    rewrite (updateStatus_visible i st e db row W Hin Hid Hdel).
    destruct (Task_eq_dec (setStatus st row) row); simpl;
      eexists; (split; [unfold toJSON; simpl; rewrite Hid; reflexivity|]).
    + reflexivity.
    + unfold update_where_id. apply length_map.
Qed.

End Routes.

Section RoutesRuns.
Import JS Http Orm TaskService Spec History TaskController.

Lemma handle_PATCH_witness :
  handle (PATCH_task "undefined" (statusValue DONE)) Sample.env0 Sample.db0 =
    ({| code := 400; statusText := "Bad Request";
        body := JsonError (Some (MsgString
                  "Validation failed (uuid is expected)")) |},
     Sample.db0) /\
  handle (PATCH_task Sample.idB (statusValue DONE)) Sample.env0 Sample.db0 =
    ({| code := 404; statusText := "Not Found";
        body := JsonError (Some (MsgString (notFoundMessage Sample.idB))) |},
     Sample.db0) /\
  exists db',
    handle (PATCH_task Sample.idA (statusValue DONE)) Sample.env0 Sample.db0 =
      ({| code := 200; statusText := "OK";
          body := JsonTask {| Http.id := Sample.idA;
                              Http.title := title Sample.rowA;
                              Http.status := statusValue DONE |} |},
       db') /\
    List.length db' = List.length Sample.db0.
Proof.
  split; [|split].
  - apply (handle_PATCH "undefined" DONE Sample.env0 Sample.db0). reflexivity.
  - apply (handle_PATCH Sample.idB DONE Sample.env0 Sample.db0).
    + reflexivity.
    + intros r H E. simpl in H.
      destruct H as [H|[H|[H|H]]]; try contradiction; subst r;
        try (simpl; discriminate); vm_compute in E; discriminate E.
  - apply (handle_PATCH Sample.idA DONE Sample.env0 Sample.db0)
      with (row := Sample.rowA).
    + reflexivity.
    + exact sample_wf.
    + simpl. left. reflexivity.
    + reflexivity.
    + reflexivity.
Defined.

End RoutesRuns.

(** ** The client view-model, case by case *)

Section ClientCases.
Import JS Http App Spec ClientSpec.

Variable Srv : Type.
Variable fetch : Request -> Srv -> Outcome * Srv.

Lemma fetchTasks_outcome (s : System Srv) :
  sent (fetchTasks fetch s) = sent s ++ [GET_tasks] /\
  isLoading (view (fetchTasks fetch s)) = false /\
  newTaskTitle (view (fetchTasks fetch s)) = newTaskTitle (view s) /\
  server (fetchTasks fetch s) = snd (fetch GET_tasks (server s)).
Proof.
  unfold fetchTasks, call, onView. simpl.
  destruct (fetch GET_tasks (server s)) as [[m|response] srv']; simpl.
  - destruct (isLoading (view s)) eqn:L; simpl; rewrite ?L; repeat split.
  - destruct (ok response); [destruct (body response) as [tasks| | |]|];
      simpl; rewrite ?fold_place; simpl;
      destruct (isLoading (view s)) eqn:L; simpl; rewrite ?L; repeat split.
Qed.

(** X15.  Whatever the server answers, [fetchTasks] sends the one list
    request, ends with the loading flag lowered and does not touch the
    input field. *)
Theorem fetchTasks_always (s : System Srv) :
  sent (fetchTasks fetch s) = sent s ++ [GET_tasks] /\
  isLoading (view (fetchTasks fetch s)) = false /\
  newTaskTitle (view (fetchTasks fetch s)) = newTaskTitle (view s) /\
  server (fetchTasks fetch s) = snd (fetch GET_tasks (server s)).
Proof.
  unfold fetchTasks, call, onView. simpl.
  destruct (fetch GET_tasks (server s)) as [[m|response] srv']; simpl.
  - destruct (isLoading (view s)) eqn:L; simpl; rewrite ?L; repeat split.
  - destruct (ok response); [destruct (body response) as [tasks| | |]|];
      simpl; rewrite ?fold_place; simpl;
      destruct (isLoading (view s)) eqn:L; simpl; rewrite ?L; repeat split.
Qed.

(** X16.  When the list request is rejected, or answered with a status that
    is not ok, the three lists stay as they were and the error message is
    set: to the message of the rejection (a fixed text when that is empty),
    or to the status text of the response after a fixed prefix. *)
Theorem fetchTasks_failure (s : System Srv) :
  (forall m srv',
     fetch GET_tasks (server s) = (Rejected m, srv') ->
     lists (view (fetchTasks fetch s)) = lists (view s) /\
     errorMessage (view (fetchTasks fetch s)) =
       Some (if nonEmpty m then m
             else "Terjadi kesalahan saat menghubungi server."%string)) /\
  (forall response srv',
     fetch GET_tasks (server s) = (Fulfilled response, srv') ->
     ok response = false ->
     lists (view (fetchTasks fetch s)) = lists (view s) /\
     errorMessage (view (fetchTasks fetch s)) =
       Some ("Gagal mengambil data: " ++ statusText response)%string).
Proof.
  split.
  - intros m srv' F. unfold fetchTasks, call, onView. simpl. rewrite F. simpl.
    destruct (isLoading (view s)); split; reflexivity.
  - intros response srv' F O.
    unfold fetchTasks, call, onView. simpl. rewrite F, O. simpl.
    destruct (isLoading (view s)); split; reflexivity.
Qed.

(** X17.  When the list request is answered ok with JSON that is not an
    array, the board is wiped: the three lists are empty (they are cleared
    before the loop that fails) and the error message is set. *)
Theorem fetchTasks_not_an_array (s : System Srv) (response : Response)
        (srv' : Srv) :
  fetch GET_tasks (server s) = (Fulfilled response, srv') ->
  ok response = true ->
  (forall tasks, body response <> JsonTasks tasks) ->
  body response <> NoContent ->
  lists (view (fetchTasks fetch s)) = ([], [], []) /\
  errorMessage (view (fetchTasks fetch s)) <> None.
Proof.
  intros F O N1 N2. unfold fetchTasks, call, onView. simpl. rewrite F, O.
  destruct (body response) as [tasks|t|m|]; simpl.
  - exfalso. exact (N1 tasks eq_refl).
  - destruct (isLoading (view s)); split; try reflexivity; discriminate.
  - destruct (isLoading (view s)); split; try reflexivity; discriminate.
  - contradiction.
Qed.

(** X18.  An add that fails (the request is rejected, or answered with a
    status that is not ok) sends the create request and nothing after it,
    and leaves the lists and what the user typed as they were; the error
    message is the rejection's, or the [message] of the error body (an array
    joined with a comma and a space), or a fixed text when the body has
    none. *)
Theorem addTask_failure (s : System Srv) :
  truthy (trim (newTaskTitle (view s))) = true ->
  (forall m srv',
     fetch (POST_tasks (trim (newTaskTitle (view s)))) (server s) =
       (Rejected m, srv') ->
     sent (addTask fetch s) =
       sent s ++ [POST_tasks (trim (newTaskTitle (view s)))] /\
     lists (view (addTask fetch s)) = lists (view s) /\
     newTaskTitle (view (addTask fetch s)) = newTaskTitle (view s) /\
     errorMessage (view (addTask fetch s)) = Some m) /\
  (forall response srv',
     fetch (POST_tasks (trim (newTaskTitle (view s)))) (server s) =
       (Fulfilled response, srv') ->
     ok response = false ->
     sent (addTask fetch s) =
       sent s ++ [POST_tasks (trim (newTaskTitle (view s)))] /\
     lists (view (addTask fetch s)) = lists (view s) /\
     newTaskTitle (view (addTask fetch s)) = newTaskTitle (view s) /\
     (forall l, body response = JsonError (Some (MsgArray l)) ->
        errorMessage (view (addTask fetch s)) = Some (join ", " l)) /\
     (forall m, body response = JsonError (Some (MsgString m)) ->
        nonEmpty m = true ->
        errorMessage (view (addTask fetch s)) = Some m) /\
     (body response = NoContent \/ body response = JsonError None ->
        errorMessage (view (addTask fetch s)) =
          Some "Gagal menambahkan tugas baru."%string)).
Proof.
  intro T. split.
  - intros m srv' F. unfold addTask, call. rewrite T, F. simpl.
    repeat split.
  - intros response srv' F O. unfold addTask, call. rewrite T, F, O. simpl.
    repeat split.
    + intros l B. rewrite B. reflexivity.
    + intros m B N. rewrite B. simpl. rewrite N. reflexivity.
    + intros [B|B]; rewrite B; reflexivity.
Qed.

(** X19.  An add the server accepts sends the create request with the
    trimmed title and then the list request, and empties the input
    field. *)
Theorem addTask_success (s : System Srv) (response : Response)
        (srv' : Srv) :
  truthy (trim (newTaskTitle (view s))) = true ->
  fetch (POST_tasks (trim (newTaskTitle (view s)))) (server s) =
    (Fulfilled response, srv') ->
  ok response = true ->
  sent (addTask fetch s) =
    sent s ++ [POST_tasks (trim (newTaskTitle (view s))); GET_tasks] /\
  newTaskTitle (view (addTask fetch s)) = [] /\
  isLoading (view (addTask fetch s)) = false /\
  server (addTask fetch s) = snd (fetch GET_tasks srv').
Proof.
  intros T F O. unfold addTask, call. rewrite T, F, O. simpl.
  match goal with |- context [fetchTasks fetch ?m] =>
    destruct (fetchTasks_outcome m) as (S1 & L1 & _ & V1) end.
  simpl in *. rewrite S1, L1, V1, <- app_assoc. repeat split.
Qed.

(** X20.  Every create request [addTask] sends carries a title that is not
    empty and has no white space at either end (trimming it changes
    nothing); the create-task schema accepts such a title as it is whenever
    it has at most 255 code units. *)
Theorem addTask_posts_trimmed (s : System Srv) :
  exists new,
    sent (addTask fetch s) = sent s ++ new /\
    forall t, In (POST_tasks t) new ->
      t <> [] /\ trim t = t /\
      (List.length t <= 255 ->
       Dto.CreateTaskSchema t = Some {| Dto.title := t |}).
Proof.
  unfold addTask.
  destruct (trim (newTaskTitle (view s))) as [|c r] eqn:T; simpl.
  { exists []. rewrite app_nil_r. split; [reflexivity|]. intros t []. }
  assert (I : trim (c :: r) = c :: r) by (rewrite <- T; apply trim_idem).
  assert (A : List.length (c :: r) <= 255 ->
              Dto.CreateTaskSchema (c :: r) = Some {| Dto.title := c :: r |}).
  { intro L. apply CreateTaskSchema_spec. simpl Dto.title.
    split; [simpl in *; lia|symmetry; exact I]. }
  assert (K : forall t, POST_tasks (c :: r) = POST_tasks t \/
                        (GET_tasks = POST_tasks t \/ False) ->
              t <> [] /\ trim t = t /\
              (List.length t <= 255 ->
               Dto.CreateTaskSchema t = Some {| Dto.title := t |})).
  { intros t [E|[E|[]]]; [|discriminate E].
    injection E as E. subst t.
    split; [discriminate|]. split; [exact I|exact A]. }
  unfold call.
  destruct (fetch (POST_tasks (c :: r)) (server s)) as [[m|response] srv'].
  - exists [POST_tasks (c :: r)]. simpl. split; [reflexivity|].
    intros t [E|[]]. apply K. left. exact E.
  - destruct (ok response).
    + exists [POST_tasks (c :: r); GET_tasks]. simpl.
      match goal with |- context [fetchTasks fetch ?m] =>
        destruct (fetchTasks_outcome m) as (S1 & _) end.
      simpl in S1. rewrite S1, <- app_assoc.
      split; [reflexivity|]. exact K.
    + exists [POST_tasks (c :: r)]. simpl. split; [reflexivity|].
      intros t [E|[]]. apply K. left. exact E.
Qed.

End ClientCases.

(** ** Moving and deleting on the board *)

Section BoardEdits.
Import JS Http App Spec ClientSpec.

Variable Srv : Type.
Variable fetch : Request -> Srv -> Outcome * Srv.

Lemma fetchTasks_forgets_error (x : option string) (m : System Srv) :
  fetchTasks fetch (onView (setError x) m) = fetchTasks fetch m.
Proof. reflexivity. Qed.

Lemma handleTaskMove_cross (event : DragAndDropEvent) (s : System Srv) :
  originalParent event <> targetParent event ->
  handleTaskMove fetch event s =
  fetchTasks fetch
    {| view := view s;
       server := snd (fetch (PATCH_task (targetNode event)
                                        (targetParent event)) (server s));
       sent := sent s ++ [PATCH_task (targetNode event)
                                     (targetParent event)] |}.
Proof.
  intro H. unfold handleTaskMove.
  apply String.eqb_neq in H. rewrite H. unfold call.
  destruct (fetch (PATCH_task (targetNode event) (targetParent event))
                  (server s)) as [[m|response] srv']; simpl.
  - apply fetchTasks_forgets_error.
  - destruct (ok response); [reflexivity|].
    apply fetchTasks_forgets_error.
Qed.

(** X21.  A drop in the column of origin does nothing: no request, the
    system as it was.  A drop in another column sends the status request and
    then behaves exactly as [fetchTasks] run on the server as that request
    left it: whether the status request succeeded, failed or was rejected
    leaves no trace in the view, the error message of a failed move being
    reset by the refetch. *)
Theorem handleTaskMove_spec (event : DragAndDropEvent) (s : System Srv) :
  (originalParent event = targetParent event ->
     handleTaskMove fetch event s = s) /\
  (originalParent event <> targetParent event ->
     handleTaskMove fetch event s =
     fetchTasks fetch
       {| view := view s;
          server := snd (fetch (PATCH_task (targetNode event)
                                           (targetParent event)) (server s));
          sent := sent s ++ [PATCH_task (targetNode event)
                                        (targetParent event)] |}).
Proof.
  split; intro H.
  - unfold handleTaskMove. apply String.eqb_eq in H. rewrite H. reflexivity.
  - apply handleTaskMove_cross. exact H.
Qed.

(** X22.  A delete the server answered ok takes one task off the board:
    the first of the lists todo, progress, done that holds the id loses its
    first task of that id, and nothing else on the board changes.  So every
    task with another id stays in its list, in order; when some list holds
    the id, the three lists together have one task less, and when none does,
    they are unchanged. *)
Theorem deleteTask_removes_one (task : Task) (s : System Srv)
        (response : Response) (srv' : Srv) :
  fetch (DELETE_task (id task)) (server s) = (Fulfilled response, srv') ->
  ok response = true ->
  removedFromBoard (id task) (view s) (view (deleteTask fetch task s)) /\
  (filter (fun t => negb (id t =? id task)%string)
          (todoTasks (view (deleteTask fetch task s))) =
   filter (fun t => negb (id t =? id task)%string) (todoTasks (view s)) /\
   filter (fun t => negb (id t =? id task)%string)
          (progressTasks (view (deleteTask fetch task s))) =
   filter (fun t => negb (id t =? id task)%string) (progressTasks (view s)) /\
   filter (fun t => negb (id t =? id task)%string)
          (doneTasks (view (deleteTask fetch task s))) =
   filter (fun t => negb (id t =? id task)%string) (doneTasks (view s))) /\
  ((exists t, In t (todoTasks (view s) ++ progressTasks (view s)
                    ++ doneTasks (view s)) /\ id t = id task) ->
   S (List.length (todoTasks (view (deleteTask fetch task s)))
      + List.length (progressTasks (view (deleteTask fetch task s)))
      + List.length (doneTasks (view (deleteTask fetch task s)))) =
   List.length (todoTasks (view s)) + List.length (progressTasks (view s))
   + List.length (doneTasks (view s))) /\
  ((forall t, In t (todoTasks (view s) ++ progressTasks (view s)
                    ++ doneTasks (view s)) -> id t <> id task) ->
   lists (view (deleteTask fetch task s)) = lists (view s)).
Proof.
  intros F O. split.
  { unfold deleteTask, call. rewrite F, O. simpl.
    apply removeFromLists_spec. }
  unfold deleteTask, call. rewrite F, O. simpl.
  unfold removeFromLists.
  assert (K : forall l k, findIndex (id task) l = Some k ->
              filter (fun t => negb (id t =? id task)%string) (splice1 k l) =
              filter (fun t => negb (id t =? id task)%string) l /\
              S (List.length (splice1 k l)) = List.length l).
  { intros l k H.
    destruct (splice1_found (id task) l k H) as (pre & t & post & L & It & _ & Sp).
    rewrite Sp, L, !filter_app, !length_app. simpl.
    apply String.eqb_eq in It. rewrite It. simpl. split; [reflexivity|lia]. }
  destruct (findIndex (id task) (todoTasks (view s))) as [k|] eqn:F1.
  { destruct (K _ _ F1) as [K1 K2]. simpl.
    split; [repeat split; auto|]. split; [intros _; lia|].
    intro N. exfalso.
    destruct (splice1_found _ _ _ F1) as (pre & t & post & L & It & _).
    apply (N t); [|exact It].
    apply in_or_app. left. rewrite L. apply in_or_app. right. left. reflexivity. }
  destruct (findIndex (id task) (progressTasks (view s))) as [k|] eqn:F2.
  { destruct (K _ _ F2) as [K1 K2]. simpl.
    split; [repeat split; auto|]. split; [intros _; lia|].
    intro N. exfalso.
    destruct (splice1_found _ _ _ F2) as (pre & t & post & L & It & _).
    apply (N t); [|exact It].
    apply in_or_app. right. apply in_or_app. left.
    rewrite L. apply in_or_app. right. left. reflexivity. }
  destruct (findIndex (id task) (doneTasks (view s))) as [k|] eqn:F3.
  { destruct (K _ _ F3) as [K1 K2]. simpl.
    split; [repeat split; auto|]. split; [intros _; lia|].
    intro N. exfalso.
    destruct (splice1_found _ _ _ F3) as (pre & t & post & L & It & _).
    apply (N t); [|exact It].
    apply in_or_app. right. apply in_or_app. right.
    rewrite L. apply in_or_app. right. left. reflexivity. }
  split; [repeat split|]. split; [|intros _; reflexivity].
  intros [t [Hin It]]. exfalso.
  apply in_app_or in Hin. destruct Hin as [Hin|Hin].
  - exact (proj1 (findIndex_none_iff _ _) F1 t Hin It).
  - apply in_app_or in Hin. destruct Hin as [Hin|Hin].
    + exact (proj1 (findIndex_none_iff _ _) F2 t Hin It).
    + exact (proj1 (findIndex_none_iff _ _) F3 t Hin It).
Qed.

(** X23.  A delete that fails leaves the board as it was and sets the error
    message: to the message of the rejection, or to a fixed text when the
    response is not ok. *)
Theorem deleteTask_failure (task : Task) (s : System Srv) :
  (forall m srv',
     fetch (DELETE_task (id task)) (server s) = (Rejected m, srv') ->
     lists (view (deleteTask fetch task s)) = lists (view s) /\
     errorMessage (view (deleteTask fetch task s)) = Some m) /\
  (forall response srv',
     fetch (DELETE_task (id task)) (server s) = (Fulfilled response, srv') ->
     ok response = false ->
     lists (view (deleteTask fetch task s)) = lists (view s) /\
     errorMessage (view (deleteTask fetch task s)) =
       Some "Gagal menghapus tugas."%string).
Proof.
  split.
  - intros m srv' F. unfold deleteTask, call. rewrite F. split; reflexivity.
  - intros response srv' F O. unfold deleteTask, call. rewrite F, O.
    split; reflexivity.
Qed.

End BoardEdits.

(** ** The client in front of the API *)

Section BoardLemmas.
Import JS Http App Spec ClientSpec.

Lemma filter_keep_all (A : Type) (f : A -> bool) (l : list A) :
  (forall x, In x l -> f x = true) -> filter f l = l.
Proof.
  induction l as [|a l IH]; simpl; intro H; [reflexivity|].
  rewrite (H a) by (left; reflexivity).
  f_equal. apply IH. intros x Hx. apply H. right. exact Hx.
Qed.

Lemma filter_swap (A : Type) (f g : A -> bool) (l : list A) :
  filter f (filter g l) = filter g (filter f l).
Proof.
  induction l as [|a l IH]; simpl; [reflexivity|].
  destruct (f a) eqn:F, (g a) eqn:G; simpl; rewrite ?F, ?G, IH; reflexivity.
Qed.

Lemma NoDup_map_filter (A B : Type) (k : A -> B) (f : A -> bool)
      (l : list A) :
  NoDup (map k l) -> NoDup (map k (filter f l)).
Proof.
  induction l as [|a l IH]; simpl; intro H; [constructor|].
  inversion H as [|x m Hn Hl]; subst.
  destruct (f a); simpl; [|auto].
  constructor; [|auto].
  intro C. apply Hn. apply in_map_iff in C. destruct C as [y [E Hy]].
  apply filter_In in Hy. rewrite <- E. apply in_map. tauto.
Qed.

Lemma NoDup_map_unique (A B : Type) (k : A -> B) (l : list A) (x y : A) :
  NoDup (map k l) -> In x l -> In y l -> k x = k y -> x = y.
Proof.
  induction l as [|a l IH]; simpl; intros H Hx Hy E; [contradiction|].
  inversion H as [|z m Hn Hl]; subst.
  destruct Hx as [Hx|Hx], Hy as [Hy|Hy]; subst.
  - reflexivity.
  - exfalso. apply Hn. rewrite E. apply in_map. exact Hy.
  - exfalso. apply Hn. rewrite <- E. apply in_map. exact Hx.
  - auto.
Qed.

(** On a list without repeated ids, removing the element [findIndex] found
    removes every element with that id. *)
Lemma splice1_unique (i : string) (l : list Task) (k : nat) :
  NoDup (map id l) -> findIndex i l = Some k ->
  splice1 k l = filter (fun t => negb (id t =? i)%string) l.
Proof.
  intros N H.
  destruct (splice1_found i l k H) as (pre & t & post & L & It & P & Sp).
  rewrite Sp, L, !filter_app. simpl.
  replace (id t =? i)%string with true by (symmetry; apply String.eqb_eq; exact It).
  simpl.
  rewrite L, map_app in N. simpl in N. apply NoDup_remove_2 in N.
  rewrite (filter_keep_all Task _ pre), (filter_keep_all Task _ post);
    [reflexivity| |].
  - intros x Hx. apply negb_true_iff. apply String.eqb_neq.
    intro C. apply N. apply in_or_app. right.
    rewrite It, <- C. apply in_map. exact Hx.
  - intros x Hx. apply negb_true_iff. apply String.eqb_neq. exact (P x Hx).
Qed.

Lemma findIndex_other_status (i : string) (a b : string) (l : list Task)
      (k : nat) :
  NoDup (map id l) -> a <> b ->
  findIndex i (filter (statusIs a) l) = Some k ->
  findIndex i (filter (statusIs b) l) = None.
Proof.
  intros N D H. apply findIndex_none_iff. intros y Hy Ey.
  destruct (splice1_found i _ k H) as (pre & x & post & L & Ex & _).
  assert (Hx : In x (filter (statusIs a) l)).
  { rewrite L. apply in_or_app. right. left. reflexivity. }
  apply filter_In in Hx. apply filter_In in Hy.
  destruct Hx as [Hx Sx], Hy as [Hy Sy].
  assert (x = y)
    by (apply (NoDup_map_unique Task string id l x y N Hx Hy); congruence).
  subst y. unfold statusIs in *.
  apply String.eqb_eq in Sx, Sy. congruence.
Qed.

(** On a board that shows a list without repeated ids, the loop of
    [deleteTask] leaves the board that shows the list without that id. *)
Lemma removeFromLists_partition (i : string) (l : list Task) (v : View) :
  NoDup (map id l) ->
  lists v = partition l ->
  lists (removeFromLists i v) =
  partition (filter (fun t => negb (id t =? i)%string) l).
Proof.
  intros N H. unfold lists, partition in H.
  inversion H as [[H1 H2 H3]]. clear H.
  unfold removeFromLists, partition. rewrite H1, H2, H3.
  rewrite !(filter_swap Task _ (fun t => negb (id t =? i)%string) l).
  pose proof (NoDup_map_filter Task string id (statusIs "todo") l N) as N1.
  pose proof (NoDup_map_filter Task string id (statusIs "progress") l N) as N2.
  pose proof (NoDup_map_filter Task string id (statusIs "done") l N) as N3.
  destruct (findIndex i (filter (statusIs "todo") l)) as [k|] eqn:F1.
  { unfold lists. simpl.
    rewrite (splice1_unique i _ k N1 F1).
    rewrite (findIndex_none i _
               (findIndex_other_status i "todo" "progress" l k N
                  ltac:(discriminate) F1)).
    rewrite (findIndex_none i _
               (findIndex_other_status i "todo" "done" l k N
                  ltac:(discriminate) F1)).
    reflexivity. }
  destruct (findIndex i (filter (statusIs "progress") l)) as [k|] eqn:F2.
  { unfold lists. simpl.
    rewrite (splice1_unique i _ k N2 F2).
    rewrite (findIndex_none i _ F1).
    rewrite (findIndex_none i _
               (findIndex_other_status i "progress" "done" l k N
                  ltac:(discriminate) F2)).
    reflexivity. }
  destruct (findIndex i (filter (statusIs "done") l)) as [k|] eqn:F3.
  { unfold lists. simpl.
    rewrite (splice1_unique i _ k N3 F3).
    rewrite (findIndex_none i _ F1), (findIndex_none i _ F2).
    reflexivity. }
  unfold lists. rewrite H1, H2, H3.
  rewrite (findIndex_none i _ F1), (findIndex_none i _ F2),
    (findIndex_none i _ F3).
  reflexivity.
Qed.

End BoardLemmas.

Section EndToEnd.
Import JS Http App Spec ClientSpec Sync.

Lemma fetchTasks_api (e : Orm.Env) (s : System Orm.Table) :
  fetchTasks (api e) s =
  {| view :=
       {| todoTasks :=
            filter (statusIs "todo")
                   (map TaskController.toJSON (History.visible (server s)));
          progressTasks :=
            filter (statusIs "progress")
                   (map TaskController.toJSON (History.visible (server s)));
          doneTasks :=
            filter (statusIs "done")
                   (map TaskController.toJSON (History.visible (server s)));
          newTaskTitle := newTaskTitle (view s);
          isLoading := false;
          errorMessage := None |};
     server := server s;
     sent := sent s ++ [GET_tasks] |}.
Proof.
  apply (fetchTasks_ok Orm.Table (api e) s
           {| code := 200; statusText := "OK";
              body := JsonTasks (map TaskController.toJSON
                                     (History.visible (server s))) |});
    reflexivity.
Qed.

Lemma partition_count (rows : list Orm.Task) :
  List.length (filter (statusIs "todo") (map TaskController.toJSON rows))
  + List.length (filter (statusIs "progress")
                        (map TaskController.toJSON rows))
  + List.length (filter (statusIs "done") (map TaskController.toJSON rows))
  = List.length rows.
Proof.
  induction rows as [|r rows IH]; simpl; [reflexivity|].
  destruct r as [i t st c u d].
  destruct st; cbn [statusIs TaskController.toJSON TaskController.statusValue
                    Orm.status status String.eqb Ascii.eqb Bool.eqb];
    simpl; lia.
Qed.

Lemma toJSON_filter_id (i : string) (rows : list Orm.Task) :
  filter (fun t => negb (id t =? i)%string) (map TaskController.toJSON rows) =
  map TaskController.toJSON (filter (fun r => negb (Orm.hasId i r)) rows).
Proof.
  induction rows as [|r rows IH]; simpl; [reflexivity|].
  unfold Orm.hasId at 1. destruct (Orm.id r =? i)%string; simpl;
    rewrite IH; reflexivity.
Qed.

Lemma snd_respond (A : Type) (r : Orm.Result A * Orm.Table)
      (f : A -> Response) :
  snd (TaskController.respond r f) = snd r.
Proof. destruct r as [[a|x] db]; reflexivity. Qed.

(** No request breaks the primary key, provided the key generated for a
    create is not in use. *)
Lemma api_wf (e : Orm.Env) (req : Request) (db : Orm.Table) :
  wf db -> ~ stored (Orm.uuid e) db -> wf (snd (api e req db)).
Proof.
  intros W N. unfold api.
  destruct (TaskController.handle req e db) as [response db'] eqn:H.
  simpl. replace db' with (snd (TaskController.handle req e db))
    by (rewrite H; reflexivity).
  clear H. destruct req as [|t|i st|i]; unfold TaskController.handle.
  - rewrite snd_respond. exact W.
  - destruct (TaskController.createTaskBody t) as [dto|x]; [|exact W].
    rewrite snd_respond.
    exact (exec_wf (TaskService.OpCreate dto) e db W N).
  - destruct (TaskController.isUUID i); [|exact W].
    destruct (TaskController.updateTaskBody st) as [s|x]; [|exact W].
    rewrite snd_respond.
    exact (exec_wf (TaskService.OpUpdateStatus i s) e db W N).
  - destruct (TaskController.isUUID i); [|exact W].
    rewrite snd_respond.
    exact (exec_wf (TaskService.OpRemove i) e db W N).
Qed.

(** X24.  Mounting the component in front of the API, from whatever state:
    the table is not touched, the board shows what the list operation
    returns, every visible task is on the board and the three lists
    together hold as many tasks as there are visible rows (none is dropped),
    the loading flag is down and there is no error. *)
Theorem onMounted_shows_visible (e : Orm.Env) (s : System Orm.Table) :
  server (onMounted (api e) s) = server s /\
  inSync (view (onMounted (api e) s)) (server s) /\
  List.length (todoTasks (view (onMounted (api e) s)))
  + List.length (progressTasks (view (onMounted (api e) s)))
  + List.length (doneTasks (view (onMounted (api e) s)))
  = List.length (History.visible (server s)) /\
  (forall r, In r (server s) -> Orm.deletedAt r = None ->
     In (TaskController.toJSON r)
        (todoTasks (view (onMounted (api e) s))
         ++ progressTasks (view (onMounted (api e) s))
         ++ doneTasks (view (onMounted (api e) s)))) /\
  isLoading (view (onMounted (api e) s)) = false /\
  errorMessage (view (onMounted (api e) s)) = None.
Proof.
  unfold onMounted. rewrite fetchTasks_api. simpl.
  split; [reflexivity|]. split; [reflexivity|].
  split; [apply partition_count|]. split; [|split; reflexivity].
  intros r Hin Hdel.
  assert (V : In (TaskController.toJSON r)
                 (map TaskController.toJSON (History.visible (server s)))).
  { apply in_map. unfold History.visible. apply filter_In.
    split; [exact Hin|]. unfold Orm.notDeleted. rewrite Hdel. reflexivity. }
  rewrite !in_app_iff, !filter_In. unfold statusIs.
  destruct (Orm.status r) eqn:S.
  - left. split; [exact V|]. simpl. rewrite S. reflexivity.
  - right. left. split; [exact V|]. simpl. rewrite S. reflexivity.
  - right. right. split; [exact V|]. simpl. rewrite S. reflexivity.
Qed.

(** X25.  In front of the API every action of the component keeps the
    board in step with the table: if the board shows what the list operation
    returns and no two rows share a key, then after mounting, adding,
    deleting or moving (the key generated for a create being fresh) the
    board again shows what the list operation returns for the table as the
    action left it, and the keys are still unique.  In particular the
    in-place removal of [deleteTask] and a refetch agree on such a board. *)
Theorem perform_keeps_in_sync (a : Action) (e : Orm.Env)
        (s : System Orm.Table) :
  wf (server s) ->
  ~ stored (Orm.uuid e) (server s) ->
  inSync (view s) (server s) ->
  wf (server (perform (api e) a s)) /\
  inSync (view (perform (api e) a s)) (server (perform (api e) a s)).
Proof.
  intros W N I. destruct a as [| |task|event]; unfold perform.
  - unfold onMounted. rewrite fetchTasks_api. simpl.
    split; [exact W|reflexivity].
  - unfold addTask.
    destruct (truthy (trim (newTaskTitle (view s)))); simpl; [|auto].
    unfold call.
    pose proof (api_wf e (POST_tasks (trim (newTaskTitle (view s))))
                  (server s) W N) as W1.
    destruct (api e (POST_tasks (trim (newTaskTitle (view s)))) (server s))
      as [[m|response] db1] eqn:A; simpl in W1.
    + simpl. unfold api in A.
      destruct (TaskController.handle _ e (server s)); discriminate A.
    + destruct (ok response) eqn:O.
      * rewrite fetchTasks_api. simpl. split; [exact W1|reflexivity].
      * simpl. split; [exact W1|].
        assert (D : db1 = server s).
        { unfold api, TaskController.handle in A.
          destruct (TaskController.createTaskBody _) as [dto|x].
          - destruct (create_cases dto e (server s)) as [C1 C2].
            destruct (Orm.storable (Dto.title dto)).
            + rewrite (C1 eq_refl) in A. simpl in A.
              inversion A; subst. discriminate O.
            + rewrite (C2 eq_refl) in A. simpl in A.
              inversion A; subst. reflexivity.
          - inversion A; subst. reflexivity. }
        rewrite D. exact I.
  - unfold deleteTask, call, api, TaskController.handle.
    destruct (TaskController.isUUID (id task)); simpl; [|auto].
    destruct (in_dec string_dec (id task) (map Orm.id (server s)))
      as [H|H].
    + rewrite (remove_stored (id task) e (server s) H). simpl.
      split; [unfold wf; rewrite ids_softDelete; exact W|].
      unfold inSync.
      rewrite (removeFromLists_partition (id task)
                 (map TaskController.toJSON (History.visible (server s)))
                 (view s)).
      * rewrite toJSON_filter_id, visible_after_mark. reflexivity.
      * rewrite map_map. simpl.
        apply (NoDup_map_filter Orm.Task string Orm.id). exact W.
      * exact I.
    + rewrite (remove_absent (id task) e (server s) H). simpl. auto.
  - destruct (String.eqb_spec (originalParent event) (targetParent event))
      as [E|E].
    + unfold handleTaskMove. apply String.eqb_eq in E. rewrite E. auto.
    + rewrite (handleTaskMove_cross Orm.Table (api e) event s E).
      rewrite fetchTasks_api. simpl.
      split; [apply (api_wf e _ (server s) W N)|reflexivity].
Qed.

End EndToEnd.

(** ** Concrete runs of the further properties *)

Section FurtherRuns.
Import JS Http App Spec ClientSpec Sync.

Lemma fetchTasks_failure_witness :
  (lists (view (fetchTasks down sysUnit)) = lists (view sysUnit) /\
   errorMessage (view (fetchTasks down sysUnit)) =
     Some "Failed to fetch"%string) /\
  (lists (view (fetchTasks failing sysUnit)) = lists (view sysUnit) /\
   errorMessage (view (fetchTasks failing sysUnit)) =
     Some "Gagal mengambil data: Internal Server Error"%string).
Proof.
  split.
  - apply (proj1 (fetchTasks_failure unit down sysUnit)
                  "Failed to fetch"%string tt).
    reflexivity.
  - apply (proj2 (fetchTasks_failure unit failing sysUnit)
                  {| code := 500; statusText := "Internal Server Error";
                     body := JsonError (Some (MsgArray
                              ["title too long"%string;
                               "try again"%string])) |} tt);
      reflexivity.
Defined.

Lemma fetchTasks_not_an_array_witness :
  lists (view (fetchTasks confused sysUnit)) = ([], [], []) /\
  errorMessage (view (fetchTasks confused sysUnit)) <> None.
Proof.
  apply (fetchTasks_not_an_array unit confused sysUnit
           {| code := 200; statusText := "OK"; body := JsonError None |} tt).
  - reflexivity.
  - reflexivity.
  - simpl. discriminate.
  - simpl. discriminate.
Defined.

Lemma addTask_failure_witness :
  (sent (addTask down sysUnit) = [POST_tasks (str "call bank")] /\
   lists (view (addTask down sysUnit)) = lists (view sysUnit) /\
   newTaskTitle (view (addTask down sysUnit)) = str " call bank " /\
   errorMessage (view (addTask down sysUnit)) =
     Some "Failed to fetch"%string) /\
  errorMessage (view (addTask failing sysUnit)) =
    Some "title too long, try again"%string.
Proof.
  split.
  - apply (proj1 (addTask_failure unit down sysUnit eq_refl)
                  "Failed to fetch"%string tt).
    reflexivity.
  - destruct (proj2 (addTask_failure unit failing sysUnit eq_refl)
                  {| code := 500; statusText := "Internal Server Error";
                     body := JsonError (Some (MsgArray
                              ["title too long"%string;
                               "try again"%string])) |} tt
                  eq_refl eq_refl) as (_ & _ & _ & A & _).
    apply (A ["title too long"%string; "try again"%string]). reflexivity.
Defined.

Lemma addTask_success_witness :
  sent (addTask (api Sample.env0) sys0) =
    [POST_tasks (str "call bank"); GET_tasks] /\
  newTaskTitle (view (addTask (api Sample.env0) sys0)) = [] /\
  isLoading (view (addTask (api Sample.env0) sys0)) = false.
Proof.
  pose proof (addTask_success Orm.Table (api Sample.env0) sys0) as H.
  edestruct H as (S1 & T1 & L1 & _).
  - reflexivity.
  - reflexivity.
  - reflexivity.
  - split; [exact S1|]. split; [exact T1|exact L1].
Defined.

Lemma handleTaskMove_spec_witness :
  handleTaskMove (api Sample.env0)
    {| originalParent := "todo"; targetParent := "todo";
       targetNode := Sample.idA |} sys0 = sys0 /\
  handleTaskMove (api Sample.env0) drag0 sys0 =
  fetchTasks (api Sample.env0)
    {| view := view sys0;
       server := snd (api Sample.env0 (PATCH_task Sample.idA "done")
                          Sample.db0);
       sent := [PATCH_task Sample.idA "done"] |}.
Proof.
  split.
  - apply (handleTaskMove_spec Orm.Table (api Sample.env0)
             {| originalParent := "todo"; targetParent := "todo";
                targetNode := Sample.idA |} sys0).
    reflexivity.
  - apply (handleTaskMove_spec Orm.Table (api Sample.env0) drag0 sys0).
    simpl. discriminate.
Defined.

Lemma deleteTask_removes_one_witness :
  removedFromBoard Sample.idA (view sysTwice)
    (view (deleteTask accepting (TaskController.toJSON Sample.rowA)
             sysTwice)) /\
  lists (view (deleteTask accepting (TaskController.toJSON Sample.rowA)
                 sysTwice)) =
  ([], [], [TaskController.toJSON Sample.rowC;
            TaskController.toJSON Sample.rowA]).
Proof.
  split; [|reflexivity].
  apply (deleteTask_removes_one unit accepting
           (TaskController.toJSON Sample.rowA) sysTwice
           {| code := 204; statusText := "No Content"; body := NoContent |}
           tt); reflexivity.
Defined.

Lemma deleteTask_failure_witness :
  (lists (view (deleteTask down archived sysUnit)) = lists (view sysUnit) /\
   errorMessage (view (deleteTask down archived sysUnit)) =
     Some "Failed to fetch"%string) /\
  (lists (view (deleteTask failing archived sysUnit)) =
     lists (view sysUnit) /\
   errorMessage (view (deleteTask failing archived sysUnit)) =
     Some "Gagal menghapus tugas."%string).
Proof.
  split.
  - apply (proj1 (deleteTask_failure unit down archived sysUnit)
                  "Failed to fetch"%string tt).
    reflexivity.
  - apply (proj2 (deleteTask_failure unit failing archived sysUnit)
                  {| code := 500; statusText := "Internal Server Error";
                     body := JsonError (Some (MsgArray
                              ["title too long"%string;
                               "try again"%string])) |} tt);
      reflexivity.
Defined.

Lemma sysSynced_inSync : inSync (view sysSynced) (server sysSynced).
Proof. reflexivity. Defined.

Lemma sample_fresh : ~ stored Sample.idD Sample.db0.
Proof. unfold stored. simpl. intuition discriminate. Defined.

Lemma perform_keeps_in_sync_witness :
  wf (server (perform (api Sample.env0)
                (Delete (TaskController.toJSON Sample.rowA)) sysSynced)) /\
  inSync (view (perform (api Sample.env0)
                  (Delete (TaskController.toJSON Sample.rowA)) sysSynced))
         (server (perform (api Sample.env0)
                    (Delete (TaskController.toJSON Sample.rowA)) sysSynced)).
Proof.
  apply (perform_keeps_in_sync (Delete (TaskController.toJSON Sample.rowA))
           Sample.env0 sysSynced).
  - exact sample_wf.
  - exact sample_fresh.
  - exact sysSynced_inSync.
Defined.

End FurtherRuns.
